(** * AliceVision texturing pipeline: [main_texturing.cpp]

    A shallow embedding of [main] (src/software/pipeline/main_texturing.cpp)
    and of the contracts it relies on.  The program is a driver: it parses the
    command line, loads the scene and the mesh, builds the reference point
    cloud, and sequences calls into the mesh library.  The calls go to code
    outside this file; they are the fields of a [World] and every theorem
    holds for all of them.

    C++ control flow is kept as it is written: a statement completes
    normally, executes [return], or throws; [try]/[catch] handles the two
    program_options exception classes only; anything else leaves [main]. *)

From Stdlib Require Import PrimFloat.
From Stdlib Require Import ZArith QArith List String Lia.
From stdpp Require Import base list gmap strings.

Local Open Scope Z_scope.

(** ** Scalar and enumeration types taken from the headers *)

(** The floating-point types and the two imageIO enumerations.  [main]
    passes their values around; the one operation it performs on them is the
    product of line 224, [computeAverageEdgeLength() * 0.1f], stored in a
    [float]. *)
Class Scalars := {
  double : Type;             (* C++ double *)
  float : Type;              (* C++ float *)
  fmul : float -> float -> float;   (* the product x * y, as a float *)
  f0_1 : float;              (* the literal 0.1f *)
  EImageFileType : Type;     (* imageIO::EImageFileType *)
  EImageColorSpace : Type;   (* imageIO::EImageColorSpace *)
}.

(** mesh::EVisibilityRemappingMethod *)
Inductive EVisibilityRemappingMethod := Pull | Push | PullPush.

(** mesh::EUnwrapMethod *)
Inductive EUnwrapMethod := Basic | LSCM | ABF.

(** mvsUtils::ImagesCache::ECorrectEV *)
Inductive ECorrectEV := NO_CORRECTION | APPLY_CORRECTION.

#[global] Instance EVisibilityRemappingMethod_eq_dec : EqDecision EVisibilityRemappingMethod.
Proof. solve_decision. Defined.

#[global] Instance EUnwrapMethod_eq_dec : EqDecision EUnwrapMethod.
Proof. solve_decision. Defined.

Definition EXIT_SUCCESS : Z := 0.
Definition EXIT_FAILURE : Z := 1.

(** IndexT: view and landmark identifiers. *)
Abbreviation IndexT := Z (only parsing).

(** mesh::PointVisibility is a vector of view indices (C++ int). *)
Abbreviation PointVisibility := (list Z).

(** mesh::PointsVisibility: one PointVisibility per point. *)
Abbreviation PointsVisibility := (list (list Z)).

(** ** Exceptions *)

(** The exception classes the program distinguishes.  The [catch] clauses of
    [main] name the first two; [ResolutionError] is the failure of the view
    resolver; every other C++ exception is [other_exception]. *)
Inductive exn :=
| required_option (what : string)   (* boost::program_options::required_option *)
| po_error (what : string)          (* any other boost::program_options::error *)
| ResolutionError (viewId : IndexT)
| other_exception (what : string).

(** What a call that can throw gives back. *)
Inductive result (A : Type) :=
| Ok (a : A)
| Throw (e : exn).
Arguments Ok {A} a.
Arguments Throw {A} e.

(** ** Data model *)

Section DataModel.
Context {SC : Scalars}.

Record Point3d := mkPoint3d { px : double; py : double; pz : double }.

Record Point2d := mkPoint2d { pu : double; pv : double }.

(** Modelled from the spec: Mesh::triangle is declared in Mesh.hpp, which is
    not part of the sources at hand.  A triangle is an index triple into the
    vertices. *)
Record triangle := mkTriangle { v0 : nat; v1 : nat; v2 : nat }.

(** mesh::Mesh, the members [main] reads: [pts], [tris], [pointsVisibilities]. *)
Record Mesh := mkMesh {
  pts : list Point3d;
  tris : list triangle;
  pointsVisibilities : PointsVisibility;
}.

(** A default-constructed [mesh::Mesh] (line 188). *)
Definition Mesh_new : Mesh :=
  {| pts := []; tris := []; pointsVisibilities := [] |}.

(** mesh::TexturingParams: the members bound to options in lines 75-108 and
    assigned in lines 154-160. *)
Record TexturingParams := mkTexturingParams {
  textureSide : Z;
  downscale : Z;
  useUDIM : bool;
  fillHoles : bool;
  padding : Z;
  useScore : bool;
  multiBandDownscale : Z;
  multiBandNbContrib : list Z;
  bestScoreThreshold : double;
  angleHardThreshold : double;
  forceVisibleByAllVertices : bool;
  visibilityRemappingMethod : EVisibilityRemappingMethod;
  processColorspace : EImageColorSpace;
  correctEV : ECorrectEV;
}.

(** Modelled from the spec: mesh::Texturing is declared in Texturing.hpp,
    which is not part of the sources at hand.  It is the object named [mesh]
    in [main], which touches its members [texParams] and [mesh]; the optional
    sequence of UV coordinates and the atlas layout are the state that
    [hasUVs], [unwrap] and [updateAtlases] work on. *)
Record Texturing := mkTexturing {
  texParams : TexturingParams;
  mesh : Mesh;
  uvCoords : list Point2d;
  atlases : list (list nat);
}.

(** Modelled from the spec: [Texturing::hasUVs] is declared in Texturing.hpp,
    which is not part of the sources at hand.  The mesh has UVs when its
    sequence of UV coordinates is not empty ("absent means no UVs yet"; "a
    mesh with zero UV coordinates" has none). *)
Definition hasUVs (t : Texturing) : bool :=
  match uvCoords t with
  | [] => false
  | _ :: _ => true
  end.

(** Modelled from the spec: sfmData::Landmark is declared in Landmark.hpp,
    which is not part of the sources at hand.  A landmark is the 3D point [X]
    and the observations, a map from view identifier to a 2D observation,
    held in iteration order. *)
Record Landmark := mkLandmark {
  X : double * double * double;
  observations : list (IndexT * Point2d);
}.

(** Modelled from the spec: sfmData::SfMData is declared in SfMData.hpp,
    which is not part of the sources at hand.  [getLandmarks()] is a map from
    landmark identifier to landmark, held in iteration order; [views] are
    the identifiers of the views the multi-view parameter set is built
    from. *)
Record SfMData := mkSfMData {
  views : list IndexT;
  getLandmarks : list (IndexT * Landmark);
}.

(** Modelled from the spec: mvsUtils::MultiViewParams is declared in
    MultiViewParams.hpp, which is not part of the sources at hand.  It holds
    the VisibilityIndexer: a map from view identifier to a stable view
    index. *)
Record MultiViewParams := mkMultiViewParams {
  viewIndex : gmap Z Z;
}.

(** Modelled from the spec: [MultiViewParams::getIndexFromViewId] is not part
    of the sources at hand.  It resolves a view identifier to its index and
    fails with [ResolutionError] when the identifier is absent from the
    multi-view parameter set. *)
Definition getIndexFromViewId (mp : MultiViewParams) (viewId : IndexT) : result Z :=
  match viewIndex mp !! viewId with
  | Some i => Ok i
  | None => Throw (ResolutionError viewId)
  end.

(** The values bound to the command-line options (lines 43-55), as
    [po::notify] leaves them. *)
Record Options := mkOptions {
  verboseLevel : string;
  sfmDataFilename : string;
  inputMeshFilepath : string;
  outputFolder : string;
  imagesFolder : string;
  outTextureFileTypeName : string;
  processColorspaceName : string;
  flipNormals : bool;
  opt_correctEV : bool;
  opt_texParams : TexturingParams;
  unwrapMethod : string;
  opt_visibilityRemappingMethod : string;
}.

End DataModel.

(** The long names of the options that [allParams] declares (lines 57-119):
    the required, the optional and the log parameters. *)
Definition declared_options : list string :=
  ["input"; "inputMesh"; "output";
   "imagesFolder"; "outputTextureFileType"; "textureSide"; "downscale"; "unwrapMethod";
   "useUDIM"; "fillHoles"; "padding"; "flipNormals"; "correctEV"; "useScore";
   "processColorspace"; "multiBandDownscale"; "multiBandNbContrib"; "bestScoreThreshold";
   "angleHardThreshold"; "forceVisibleByAllVertices"; "visibilityRemappingMethod";
   "verboseLevel"]%string.

(** ** The code [main] calls into *)

(** Everything [main] calls that lives outside main_texturing.cpp: the
    program_options parser, the enum conversions, the scene and mesh loaders,
    the file system and the stages of the mesh library.  A call that can
    throw returns a [result]; a call that writes to the disk returns the disk
    it leaves, also when it throws. *)
Class World {SC : Scalars} := {
  Disk : Type;
  variables_map : Type;             (* po::variables_map *)
  (* po::store(po::parse_command_line(argc, argv, allParams), vm) *)
  parse_command_line : list string -> result variables_map;
  (* vm.count(name) *)
  vm_count : variables_map -> string -> nat;
  (* po::notify(vm): fills the bound variables or throws *)
  notify : variables_map -> result Options;
  EVisibilityRemappingMethod_stringToEnum : string -> result EVisibilityRemappingMethod;
  EImageColorSpace_stringToEnum : string -> result EImageColorSpace;
  EImageFileType_stringToEnum : string -> result EImageFileType;
  EUnwrapMethod_stringToEnum : string -> result EUnwrapMethod;
  (* sfmDataIO::Load(sfmData, filename, ALL_DENSE): None is the result false *)
  sfmDataIO_Load : string -> Disk -> result (option SfMData);
  (* mvsUtils::MultiViewParams mp(sfmData, imagesFolder) *)
  MultiViewParams_ctor : SfMData -> string -> Disk -> result MultiViewParams;
  (* Texturing::clear *)
  clear : Texturing -> result Texturing;
  (* Texturing::loadFromOBJ(filename, flipNormals) *)
  loadFromOBJ : string -> bool -> Disk -> Texturing -> result Texturing;
  (* fs::create_directory(p) *)
  create_directory : string -> Disk -> result unit * Disk;
  (* Texturing::remapVisibilities(method, refMesh) *)
  remapVisibilities : EVisibilityRemappingMethod -> Mesh -> Texturing -> result Texturing;
  (* Texturing::unwrap(mp, method) *)
  unwrap : MultiViewParams -> EUnwrapMethod -> Texturing -> result Texturing;
  (* Mesh::computeAverageEdgeLength() *)
  computeAverageEdgeLength : Mesh -> float;
  (* Mesh::subdivideMeshMaxEdgeLengthUpdatePtsCams(mp, lengthThr, ptsCams, maxPts);
     [main] passes the mesh's own pointsVisibilities as ptsCams, so the mesh
     given and returned carries that argument *)
  subdivideMeshMaxEdgeLengthUpdatePtsCams :
    MultiViewParams -> float -> Z -> Mesh -> result Mesh;
  (* Texturing::updateAtlases() *)
  updateAtlases : Texturing -> result Texturing;
  (* Texturing::saveAsOBJ(dir, basename, textureFileType) *)
  saveAsOBJ : string -> string -> EImageFileType -> Texturing -> Disk -> result unit * Disk;
  (* Texturing::generateTextures(mp, outPath, textureFileType) *)
  generateTextures :
    MultiViewParams -> string -> EImageFileType -> Texturing -> Disk -> result Texturing * Disk;
}.

(** ** Observable events *)

Section Events.
Context {SC : Scalars}.

(** The log lines of [main], with the values they print. *)
Inductive LogMsg :=
| CannotReadSfMData (filename : string)       (* line 166 *)
| StartUnwrapping (method : string)           (* line 212 *)
| UnwrappingDone                              (* line 214 *)
| StartSubdivision                            (* line 220 *)
| NbPtsInit (n : nat)                         (* line 221 *)
| NbPtsVisibilitiesInit (n : nat)             (* line 222 *)
| NbPtsAfterSubdivision (n : nat)             (* line 230 *)
| NbTrisAfterSubdivision (n : nat)            (* line 231 *)
| NbPtsVisibilitiesAfterSubdivision (n : nat) (* line 232 *)
| GenerateTexturesMsg                         (* line 241 *)
| TaskDone.                                   (* line 244 *)

(** What a run does that can be seen from outside, in the order it happens:
    what it prints and which outside code it calls, with the arguments. *)
Inductive Event :=
| Cout_allParams                       (* ALICEVISION_COUT(allParams) *)
| Cerr_error (what : string)           (* ALICEVISION_CERR("ERROR: " << e.what()) *)
| Cout_usage                           (* ALICEVISION_COUT("Usage:\n\n" << allParams) *)
| Cout_parameters                      (* lines 148-149 *)
| SetLogLevel (level : string)         (* line 152 *)
| LogError (m : LogMsg)
| LogInfo (m : LogMsg)
| call_parse_command_line (argv : list string)
| call_notify
| call_Load (filename : string)
| call_MultiViewParams (imagesFolder : string)
| call_clear
| call_loadFromOBJ (filename : string) (flipNormals : bool)
| call_create_directory (p : string)
| call_getIndexFromViewId (viewId : IndexT)
| call_remapVisibilities (method : EVisibilityRemappingMethod) (refMesh : Mesh)
| call_hasUVs
| call_unwrap (method : EUnwrapMethod)
| call_computeAverageEdgeLength
| call_subdivide (lengthThr : float) (maxPts : Z)
| call_updateAtlases
| call_saveAsOBJ (dir basename : string) (textureFileType : EImageFileType)
| call_generateTextures (outPath : string) (textureFileType : EImageFileType).

End Events.

(** ** Statements: normal completion, [return], [throw] *)

(** How a statement of [main] ends. *)
Inductive completion (A : Type) :=
| Normal (a : A)          (* falls through to the next statement *)
| Returned (code : Z)     (* executed [return code;] *)
| Thrown (e : exn).       (* an exception is propagating *)
Arguments Normal {A} a.
Arguments Returned {A} code.
Arguments Thrown {A} e.

Section Monad.
Context {SC : Scalars} {W : World}.

(** The result of running a piece of [main] from a given disk: how it ended,
    the disk it leaves and the events it produced, oldest first. *)
Record Run (A : Type) := mkRun {
  outcome : completion A;
  disk_after : Disk;
  events : list Event;
}.
Arguments mkRun {A} _ _ _.
Arguments outcome {A} _.
Arguments disk_after {A} _.
Arguments events {A} _.

Definition M (A : Type) : Type := Disk -> Run A.

Definition ret {A} (a : A) : M A := fun d => mkRun (Normal a) d [].

Definition bind {A B} (m : M A) (k : A -> M B) : M B := fun d =>
  match m d with
  | mkRun (Normal a) d1 e1 =>
      match k a d1 with
      | mkRun o d2 e2 => mkRun o d2 (e1 ++ e2)
      end
  | mkRun (Returned c) d1 e1 => mkRun (Returned c) d1 e1
  | mkRun (Thrown e) d1 e1 => mkRun (Thrown e) d1 e1
  end.

(** [return code;] *)
Definition return_ {A} (code : Z) : M A := fun d => mkRun (Returned code) d [].

(** [throw e;] *)
Definition throw {A} (e : exn) : M A := fun d => mkRun (Thrown e) d [].

Definition emit (ev : Event) : M unit := fun d => mkRun (Normal tt) d [ev].

(** A call that does not touch the disk. *)
Definition call {A} (ev : Event) (r : result A) : M A := fun d =>
  match r with
  | Ok a => mkRun (Normal a) d [ev]
  | Throw e => mkRun (Thrown e) d [ev]
  end.

(** A call that reads the disk. *)
Definition call_read {A} (ev : Event) (f : Disk -> result A) : M A := fun d =>
  call ev (f d) d.

(** A call that writes to the disk. *)
Definition call_write {A} (ev : Event) (f : Disk -> result A * Disk) : M A := fun d =>
  match f d with
  | (Ok a, d') => mkRun (Normal a) d' [ev]
  | (Throw e, d') => mkRun (Thrown e) d' [ev]
  end.

(** A conversion or other pure expression that can throw. *)
Definition eval {A} (r : result A) : M A := fun d =>
  match r with
  | Ok a => mkRun (Normal a) d []
  | Throw e => mkRun (Thrown e) d []
  end.

(** [try { body } catch ...]: [handler e] is the clause that catches [e], if
    there is one. *)
Definition try_catch {A} (body : M A) (handler : exn -> option (M A)) : M A := fun d =>
  match body d with
  | mkRun (Thrown e) d1 e1 =>
      match handler e with
      | Some h =>
          match h d1 with
          | mkRun o d2 e2 => mkRun o d2 (e1 ++ e2)
          end
      | None => mkRun (Thrown e) d1 e1
      end
  | r => r
  end.

End Monad.

Arguments mkRun {SC W A} _ _ _.
Arguments outcome {SC W A} _.
Arguments disk_after {SC W A} _.
Arguments events {SC W A} _.

Notation "'let*' x ':=' c 'in' k" := (bind c (fun x => k))
  (at level 10, x pattern, c at level 100, k at level 200).
Notation "c ';;' k" := (bind c (fun _ => k))
  (at level 100, k at level 200, right associativity).

(** ** Integer conversions of line 225 *)

(** [pts.size() * 100]: the size of the container is taken to be a
    [std::size_t] of 64 bits, as for the standard containers (the container
    is declared in StaticVector.hpp, which is not part of the sources at
    hand), and the product of two such values wraps modulo 2^64. *)
Definition size_t_mul (a b : Z) : Z := (a * b) mod 2 ^ 64.

(** [static_cast<int>(u)] of an unsigned value: the value modulo 2^32, read
    as a signed 32-bit integer. *)
Definition static_cast_int (u : Z) : Z :=
  let r := u mod 2 ^ 32 in
  if r <? 2 ^ 31 then r else r - 2 ^ 32.

(** [static_cast<int>(mesh.mesh->pts.size() * 100)] for a mesh of [n] points. *)
Definition subdivideMaxPtsThr (n : nat) : Z :=
  static_cast_int (size_t_mul (Z.of_nat n) 100).

(** ** [main] *)

Section Main.
Context {SC : Scalars} {W : World}.

(** The local variables of [main] that are live after line 192. *)
Record Locals := mkLocals {
  var_opts : Options;                       (* the option variables, lines 43-55 *)
  var_texParams : TexturingParams;          (* texParams *)
  var_outputTextureFileType : EImageFileType;
  var_sfmData : SfMData;
  var_mp : MultiViewParams;
  var_mesh : Texturing;                     (* mesh *)
  var_refMesh : Mesh;                       (* refMesh, with refVisibilities *)
}.

Definition set_mesh (L : Locals) (m : Texturing) : Locals :=
  {| var_opts := var_opts L; var_texParams := var_texParams L;
     var_outputTextureFileType := var_outputTextureFileType L;
     var_sfmData := var_sfmData L; var_mp := var_mp L;
     var_mesh := m; var_refMesh := var_refMesh L |}.

Definition set_refMesh (L : Locals) (r : Mesh) : Locals :=
  {| var_opts := var_opts L; var_texParams := var_texParams L;
     var_outputTextureFileType := var_outputTextureFileType L;
     var_sfmData := var_sfmData L; var_mp := var_mp L;
     var_mesh := var_mesh L; var_refMesh := r |}.

(** The catch clauses of lines 135-146: both print the error and the usage
    and return EXIT_FAILURE. *)
Definition catch_clauses {A} (e : exn) : option (M A) :=
  match e with
  | required_option what =>
      Some (emit (Cerr_error what);; emit Cout_usage;; return_ EXIT_FAILURE)
  | po_error what =>
      Some (emit (Cerr_error what);; emit Cout_usage;; return_ EXIT_FAILURE)
  | _ => None
  end.

(** Lines 121-146: parse the command line; [argc] is the length of [argv]. *)
Definition parse_options (argv : list string) : M Options :=
  try_catch
    (let* vm := call (call_parse_command_line argv) (parse_command_line argv) in
     if negb (Nat.eqb (vm_count vm "help"%string) 0) || (Z.of_nat (length argv) =? 1)
     then emit Cout_allParams;; return_ EXIT_SUCCESS
     else call call_notify (notify vm))
    catch_clauses.

(** Lines 154-160: the assignments to [texParams]. *)
Definition assign_texParams (tp : TexturingParams) (vrm : EVisibilityRemappingMethod)
    (pc : EImageColorSpace) (cev : ECorrectEV) : TexturingParams :=
  {| textureSide := textureSide tp; downscale := downscale tp;
     useUDIM := useUDIM tp; fillHoles := fillHoles tp; padding := padding tp;
     useScore := useScore tp; multiBandDownscale := multiBandDownscale tp;
     multiBandNbContrib := multiBandNbContrib tp;
     bestScoreThreshold := bestScoreThreshold tp;
     angleHardThreshold := angleHardThreshold tp;
     forceVisibleByAllVertices := forceVisibleByAllVertices tp;
     visibilityRemappingMethod := vrm; processColorspace := pc; correctEV := cev |}.

(** Lines 148-160. *)
Definition configure (o : Options) : M (TexturingParams * EImageFileType) :=
  emit Cout_parameters;;
  emit (SetLogLevel (verboseLevel o));;
  let* vrm := eval (EVisibilityRemappingMethod_stringToEnum (opt_visibilityRemappingMethod o)) in
  let* pc := eval (EImageColorSpace_stringToEnum (processColorspaceName o)) in
  let* outputTextureFileType := eval (EImageFileType_stringToEnum (outTextureFileTypeName o)) in
  let cev := if opt_correctEV o then APPLY_CORRECTION else NO_CORRECTION in
  ret (assign_texParams (opt_texParams o) vrm pc cev, outputTextureFileType).

(** Lines 173-174: [mesh::Texturing mesh; mesh.texParams = texParams;] *)
Definition Texturing_new (tp : TexturingParams) : Texturing :=
  {| texParams := tp; mesh := Mesh_new; uvCoords := []; atlases := [] |}.

(** Lines 162-192: read the scene, load the mesh, create the output folder,
    declare the empty [refMesh]. *)
Definition load_inputs (o : Options) (tp : TexturingParams)
    (outputTextureFileType : EImageFileType) : M Locals :=
  let* loaded := call_read (call_Load (sfmDataFilename o))
                           (sfmDataIO_Load (sfmDataFilename o)) in
  match loaded with
  | None =>
      emit (LogError (CannotReadSfMData (sfmDataFilename o)));;
      return_ EXIT_FAILURE
  | Some sfmData =>
      let* mp := call_read (call_MultiViewParams (imagesFolder o))
                           (MultiViewParams_ctor sfmData (imagesFolder o)) in
      let m := Texturing_new tp in
      let* m := call call_clear (clear m) in
      let* m := call_read (call_loadFromOBJ (inputMeshFilepath o) (flipNormals o))
                          (fun d => loadFromOBJ (inputMeshFilepath o) (flipNormals o) d m) in
      call_write (call_create_directory (outputFolder o))
                 (create_directory (outputFolder o));;
      ret {| var_opts := o; var_texParams := tp;
             var_outputTextureFileType := outputTextureFileType;
             var_sfmData := sfmData; var_mp := mp; var_mesh := m;
             var_refMesh := Mesh_new |}
  end.

(** Lines 41-192. *)
Definition startup (argv : list string) : M Locals :=
  let* o := parse_options argv in
  let* cfg := configure o in
  load_inputs o cfg.1 cfg.2.

(** Lines 200-201: the inner loop, [pointVisibility.push_back] per observation. *)
Fixpoint observation_loop (mp : MultiViewParams) (obs : list (IndexT * Point2d))
    (pointVisibility : PointVisibility) : M PointVisibility :=
  match obs with
  | [] => ret pointVisibility
  | observationPair :: rest =>
      let* i := call (call_getIndexFromViewId observationPair.1)
                     (getIndexFromViewId mp observationPair.1) in
      observation_loop mp rest (pointVisibility ++ [i])
  end.

(** [Point3d(landmark.X(0), landmark.X(1), landmark.X(2))] *)
Definition landmark_point (landmark : Landmark) : Point3d :=
  mkPoint3d (X landmark).1.1 (X landmark).1.2 (X landmark).2.

(** Lines 194-205: the loop over the landmarks. *)
Fixpoint landmark_loop (mp : MultiViewParams) (landmarks : list (IndexT * Landmark))
    (refMesh : Mesh) : M Mesh :=
  match landmarks with
  | [] => ret refMesh
  | landmarkPair :: rest =>
      let landmark := landmarkPair.2 in
      let* pointVisibility := observation_loop mp (observations landmark) [] in
      landmark_loop mp rest
        {| pts := pts refMesh ++ [landmark_point landmark];
           tris := tris refMesh;
           pointsVisibilities := pointsVisibilities refMesh ++ [pointVisibility] |}
  end.

(** Lines 187-205: load the reference dense point cloud with visibilities. *)
Definition build_reference_cloud (L : Locals) : M Locals :=
  let* refMesh := landmark_loop (var_mp L) (getLandmarks (var_sfmData L)) (var_refMesh L) in
  ret (set_refMesh L refMesh).

(** [mesh.remapVisibilities(texParams.visibilityRemappingMethod, refMesh)]
    (lines 207 and 234). *)
Definition remap (L : Locals) : M Locals :=
  let method := visibilityRemappingMethod (var_texParams L) in
  let* m := call (call_remapVisibilities method (var_refMesh L))
                 (remapVisibilities method (var_refMesh L) (var_mesh L)) in
  ret (set_mesh L m).

(** Lines 210-215: the branch taken when the mesh has no UVs. *)
Definition unwrap_branch (L : Locals) : M Locals :=
  emit (LogInfo (StartUnwrapping (unwrapMethod (var_opts L))));;
  let* method := eval (EUnwrapMethod_stringToEnum (unwrapMethod (var_opts L))) in
  let* m := call (call_unwrap method) (unwrap (var_mp L) method (var_mesh L)) in
  emit (LogInfo UnwrappingDone);;
  ret (set_mesh L m).

(** Lines 218-235: the branch taken when the mesh has UVs. *)
Definition subdivide_branch (L : Locals) : M Locals :=
  let m := var_mesh L in
  emit (LogInfo StartSubdivision);;
  emit (LogInfo (NbPtsInit (length (pts (mesh m)))));;
  emit (LogInfo (NbPtsVisibilitiesInit (length (pointsVisibilities (mesh m)))));;
  emit call_computeAverageEdgeLength;;
  let subdivideMeshNTimesAvEdgeLengthThr := fmul (computeAverageEdgeLength (mesh m)) f0_1 in
  let maxPts := subdivideMaxPtsThr (length (pts (mesh m))) in
  let* me := call (call_subdivide subdivideMeshNTimesAvEdgeLengthThr maxPts)
                  (subdivideMeshMaxEdgeLengthUpdatePtsCams (var_mp L)
                     subdivideMeshNTimesAvEdgeLengthThr maxPts (mesh m)) in
  let m := {| texParams := texParams m; mesh := me;
              uvCoords := uvCoords m; atlases := atlases m |} in
  let* m := call call_updateAtlases (updateAtlases m) in
  emit (LogInfo (NbPtsAfterSubdivision (length (pts (mesh m)))));;
  emit (LogInfo (NbTrisAfterSubdivision (length (tris (mesh m)))));;
  emit (LogInfo (NbPtsVisibilitiesAfterSubdivision (length (pointsVisibilities (mesh m)))));;
  remap (set_mesh L m).

(** Lines 209-235: generate UVs if necessary, subdivide otherwise. *)
Definition generate_uvs_or_subdivide (L : Locals) : M Locals :=
  emit call_hasUVs;;
  if negb (hasUVs (var_mesh L)) then unwrap_branch L else subdivide_branch L.

(** Lines 237-245: save the mesh, generate the textures, return. *)
Definition save_and_texture (L : Locals) : M Empty_set :=
  let o := var_opts L in
  call_write (call_saveAsOBJ (outputFolder o) "texturedMesh"%string (var_outputTextureFileType L))
    (saveAsOBJ (outputFolder o) "texturedMesh"%string (var_outputTextureFileType L) (var_mesh L));;
  emit (LogInfo GenerateTexturesMsg);;
  let* m := call_write (call_generateTextures (outputFolder o) (var_outputTextureFileType L))
              (generateTextures (var_mp L) (outputFolder o) (var_outputTextureFileType L)
                 (var_mesh L)) in
  emit (LogInfo TaskDone);;
  return_ EXIT_SUCCESS.

(** The pipeline up to and including the first visibility remap (line 207). *)
Definition before_branch (argv : list string) : M Locals :=
  let* L := startup argv in
  let* L := build_reference_cloud L in
  remap L.

(** [int main(int argc, char* argv[])] *)
Definition main (argv : list string) : M Empty_set :=
  let* L := before_branch argv in
  let* L := generate_uvs_or_subdivide L in
  save_and_texture L.

(** How the process ends: [main] returned an exit code, or an exception left
    [main] and [std::terminate] ended the process without an exit code of
    [main]. *)
Inductive ProcessEnd :=
| Exit (code : Z)
| Terminate (e : exn).

Definition process_end (c : completion Empty_set) : ProcessEnd :=
  match c with
  | Normal a => match a with end
  | Returned code => Exit code
  | Thrown e => Terminate e
  end.

(** Running the program on a command line and a disk. *)
Definition run (argv : list string) (d : Disk) : ProcessEnd * Disk * list Event :=
  let r := main argv d in
  (process_end (outcome r), disk_after r, events r).

End Main.

(** ** The visibility remapper, from its contract *)

(** Distances between points and from a point to a triangle, and their
    comparison: the geometry the remapper searches with. *)
Class Geometry {SC : Scalars} := {
  distance_le : double -> double -> bool;
  point_distance : Point3d -> Point3d -> double;
  triangle_distance : Point3d -> Point3d * Point3d * Point3d -> double;
}.

Module VisibilityRemapper.
Section Model.
Context {SC : Scalars} {G : Geometry}.

(** The position and the cost of the cheapest element of a list, the first
    one among equals. *)
Fixpoint argmin {A : Type} (cost : A -> double) (l : list A) : option (nat * double) :=
  match l with
  | [] => None
  | x :: rest =>
      match argmin cost rest with
      | None => Some (0%nat, cost x)
      | Some (j, c) =>
          if distance_le (cost x) c then Some (0%nat, cost x) else Some (S j, c)
      end
  end.

(** Modelled from the spec: the Pull method of [Texturing::remapVisibilities]
    (Texturing.cpp is not part of the sources at hand).  For each target-mesh
    vertex, find the nearest reference point and copy its visibility set. *)
Definition pull (refMesh target : Mesh) : PointsVisibility :=
  map (fun v =>
         match argmin (point_distance v) (pts refMesh) with
         | Some (i, _) => default [] (pointsVisibilities refMesh !! i)
         | None => []
         end)
      (pts target).

(** The triangles of a mesh with the positions of their three vertices. *)
Definition corners (target : Mesh) (t : triangle) : option (triangle * (Point3d * Point3d * Point3d)) :=
  match pts target !! v0 t, pts target !! v1 t, pts target !! v2 t with
  | Some a, Some b, Some c => Some (t, (a, b, c))
  | _, _, _ => None
  end.

Definition located_tris (target : Mesh) : list (triangle * (Point3d * Point3d * Point3d)) :=
  omap (corners target) (tris target).

(** Union one reference point's visibility set into the three vertices of the
    triangle nearest to it. *)
Definition push_point (target : Mesh) (acc : PointsVisibility)
    (rp : Point3d * PointVisibility) : PointsVisibility :=
  match argmin (fun t => triangle_distance rp.1 t.2) (located_tris target) with
  | Some (k, _) =>
      match located_tris target !! k with
      | Some (t, _) =>
          alter (list_union rp.2) (v0 t)
            (alter (list_union rp.2) (v1 t)
               (alter (list_union rp.2) (v2 t) acc))
      | None => acc
      end
  | None => acc
  end.

(** Modelled from the spec: the Push method of [Texturing::remapVisibilities].
    For each reference point, find the nearest target-mesh triangle and union
    its visibility set into that triangle's vertices' visibility sets. *)
Definition push (refMesh target : Mesh) : PointsVisibility :=
  fold_left (push_point target)
    (zip (pts refMesh) (pointsVisibilities refMesh))
    (replicate (length (pts target)) []).

(** Modelled from the spec: the PullPush method runs Pull and Push and unions
    the two results per vertex. *)
Definition pull_push (refMesh target : Mesh) : PointsVisibility :=
  zip_with list_union (pull refMesh target) (push refMesh target).

Definition is_empty {A : Type} (l : list A) : bool :=
  match l with [] => true | _ :: _ => false end.

(** Modelled from the spec: [Texturing::remapVisibilities(method, refMesh)],
    the contract [remap(method, referenceCloud, targetMesh)] of the
    VisibilityRemapper.  It updates the target mesh's visibility sets in
    place; if the target mesh has no vertices or the reference cloud has no
    points, the remap produces empty visibility sets. *)
Definition remap (method : EVisibilityRemappingMethod) (refMesh : Mesh)
    (t : Texturing) : Texturing :=
  let target := mesh t in
  let visibilities :=
    if is_empty (pts target) || is_empty (pts refMesh)
    then replicate (length (pts target)) []
    else match method with
         | Pull => pull refMesh target
         | Push => push refMesh target
         | PullPush => pull_push refMesh target
         end in
  {| texParams := texParams t;
     mesh := {| pts := pts target; tris := tris target;
                pointsVisibilities := visibilities |};
     uvCoords := uvCoords t;
     atlases := atlases t |}.

End Model.
End VisibilityRemapper.

(** ** A small world to run [main] in *)

(** Scalars are rationals, files live in a finite map from path to content,
    the command line is a list of [--name value] pairs, and the stages are
    simple total functions.  The remapper is the one of the contract above. *)
Module TestWorld.

(** A [double] rounded to the nearest value with a significand of 24 bits,
    ties to even: the rounding of a C++ [float] operation.  The significand
    of [|x|], in [1/2, 1), is added to 2^28: the sum is a [double] in
    [2^28, 2^29), where two consecutive values are 2^-24 apart, so that the
    addition rounds the significand to a multiple of 2^-24, ties to even,
    and the subtraction of 2^28 is exact.  The exponent range of a [float]
    is not enforced: the values of the test world are far from its ends. *)
Definition binary32_round (x : PrimFloat.float) : PrimFloat.float :=
  let (m, e) := PrimFloat.frshiftexp (PrimFloat.abs x) in
  let r := PrimFloat.ldshiftexp
             (PrimFloat.sub (PrimFloat.add m 0x1p28%float) 0x1p28%float) e in
  if PrimFloat.ltb x 0%float then PrimFloat.opp r else r.

(** The scalars of the test world.  A [float] is held in a primitive
    binary64 float, which holds every binary32 value exactly; the product of
    two of them is exact in binary64 (48 bits) and is then rounded to
    binary32; [0.1f] is the [float] nearest to a tenth, 0x1.99999ap-4. *)
#[export] Instance scalars : Scalars := {|
  double := Q;
  float := PrimFloat.float;
  fmul := fun x y => binary32_round (PrimFloat.mul x y);
  f0_1 := 0x1.99999ap-4%float;
  EImageFileType := string;
  EImageColorSpace := string;
|}.

Definition sq_dist (p q : @Point3d scalars) : Q :=
  ((px p - px q) * (px p - px q) + (py p - py q) * (py p - py q)
   + (pz p - pz q) * (pz p - pz q))%Q.

#[export] Instance geometry : @Geometry scalars := {|
  distance_le := Qle_bool;
  point_distance := sq_dist;
  triangle_distance := fun p abc =>
    (sq_dist p abc.1.1 + sq_dist p abc.1.2 + sq_dist p abc.2)%Q;
|}.

Inductive File :=
| SceneFile (s : SfMData)
| MeshFile (m : Mesh) (uv : list Point2d)
| TextureFile
| Directory.

(** The options the test parser knows: five of the declared ones. *)
Definition known_option (name : string) : bool :=
  bool_decide (name ∈ ["--input"; "--inputMesh"; "--output"; "--unwrapMethod";
                       "--visibilityRemappingMethod"]%string).

Fixpoint parse_pairs (args : list string) : result (list (string * string)) :=
  match args with
  | [] => Ok []
  | [name] => Throw (po_error name)
  | name :: value :: rest =>
      if known_option name then
        match parse_pairs rest with
        | Ok l => Ok ((name, value) :: l)
        | Throw e => Throw e
        end
      else Throw (po_error name)
  end.

Definition lookup_option (vm : list (string * string)) (name : string) : option string :=
  snd <$> list_find (fun nv => nv.1 = name) vm ≫= fun r => Some r.2.

Definition default_texParams : TexturingParams :=
  {| textureSide := 8192; downscale := 2; useUDIM := true; fillHoles := false;
     padding := 5; useScore := true; multiBandDownscale := 4;
     multiBandNbContrib := [1; 5; 10; 0];
     bestScoreThreshold := (1 # 10)%Q; angleHardThreshold := 90%Q;
     forceVisibleByAllVertices := false;
     visibilityRemappingMethod := PullPush; processColorspace := "sRGB"%string;
     correctEV := NO_CORRECTION |}.

Definition test_notify (vm : list (string * string)) : result Options :=
  match lookup_option vm "--input", lookup_option vm "--inputMesh",
        lookup_option vm "--output" with
  | Some i, Some m, Some o =>
      Ok {| verboseLevel := "info"; sfmDataFilename := i; inputMeshFilepath := m;
            outputFolder := o; imagesFolder := "";
            outTextureFileTypeName := "png"; processColorspaceName := "sRGB";
            flipNormals := false; opt_correctEV := false;
            opt_texParams := default_texParams;
            unwrapMethod := default "Basic"%string (lookup_option vm "--unwrapMethod");
            opt_visibilityRemappingMethod :=
              default "PullPush"%string (lookup_option vm "--visibilityRemappingMethod") |}%string
  | None, _, _ => Throw (required_option "--input")
  | _, None, _ => Throw (required_option "--inputMesh")
  | _, _, None => Throw (required_option "--output")
  end.

Definition remap_method_of_string (s : string) : result EVisibilityRemappingMethod :=
  if decide (s = "Pull"%string) then Ok Pull
  else if decide (s = "Push"%string) then Ok Push
  else if decide (s = "PullPush"%string) then Ok PullPush
  else Throw (other_exception s).

Definition unwrap_method_of_string (s : string) : result EUnwrapMethod :=
  if decide (s = "Basic"%string) then Ok Basic
  else if decide (s = "LSCM"%string) then Ok LSCM
  else if decide (s = "ABF"%string) then Ok ABF
  else Throw (other_exception s).

Definition index_views (vs : list Z) : gmap Z Z :=
  list_to_map (zip vs (Z.of_nat <$> seq 0 (length vs))).

Definition test_load (filename : string) (d : gmap string File) : result (option SfMData) :=
  match d !! filename with
  | Some (SceneFile s) => Ok (Some s)
  | _ => Ok None
  end.

Definition test_loadFromOBJ (filename : string) (flip : bool) (d : gmap string File)
    (t : Texturing) : result Texturing :=
  match d !! filename with
  | Some (MeshFile m uv) =>
      Ok {| texParams := texParams t; mesh := m; uvCoords := uv; atlases := [] |}
  | _ => Throw (other_exception filename)
  end.

Definition test_create_directory (p : string) (d : gmap string File)
    : result unit * gmap string File :=
  match d !! p with
  | None => (Ok tt, <[p := Directory]> d)
  | Some _ => (Ok tt, d)
  end.

Definition test_unwrap (t : Texturing) : Texturing :=
  {| texParams := texParams t; mesh := mesh t;
     uvCoords := (fun p => mkPoint2d (px p) (py p)) <$> pts (mesh t);
     atlases := [seq 0 (length (tris (mesh t)))] |}.

Definition test_updateAtlases (t : Texturing) : Texturing :=
  {| texParams := texParams t; mesh := mesh t; uvCoords := uvCoords t;
     atlases := [seq 0 (length (tris (mesh t)))] |}.

Definition obj_path (dir name : string) : string := (dir +:+ "/" +:+ name +:+ ".obj")%string.

Definition test_saveAsOBJ (dir name : string) (ft : string) (t : Texturing)
    (d : gmap string File) : result unit * gmap string File :=
  (Ok tt, <[obj_path dir name := MeshFile (mesh t) (uvCoords t)]> d).

Definition test_generateTextures (dir : string) (ft : string) (t : Texturing)
    (d : gmap string File) : result Texturing * gmap string File :=
  (Ok t, <[(dir +:+ "/texture_1001." +:+ ft)%string := TextureFile]> d).

#[export] Instance world : @World scalars := {|
  Disk := gmap string File;
  variables_map := list (string * string);
  parse_command_line := fun argv => parse_pairs (tail argv);
  vm_count := fun vm name => length (filter (fun nv => nv.1 = ("--" +:+ name)%string) vm);
  notify := test_notify;
  EVisibilityRemappingMethod_stringToEnum := remap_method_of_string;
  EImageColorSpace_stringToEnum := fun s => Ok s;
  EImageFileType_stringToEnum := fun s => Ok s;
  EUnwrapMethod_stringToEnum := unwrap_method_of_string;
  sfmDataIO_Load := test_load;
  MultiViewParams_ctor := fun sfm _ _ => Ok {| viewIndex := index_views (views sfm) |};
  clear := fun t => Ok (Texturing_new (texParams t));
  loadFromOBJ := test_loadFromOBJ;
  create_directory := test_create_directory;
  remapVisibilities := fun method refMesh t => Ok (VisibilityRemapper.remap method refMesh t);
  unwrap := fun _ _ t => Ok (test_unwrap t);
  computeAverageEdgeLength := fun _ => 2%float;
  subdivideMeshMaxEdgeLengthUpdatePtsCams := fun _ _ _ m => Ok m;
  updateAtlases := fun t => Ok (test_updateAtlases t);
  saveAsOBJ := test_saveAsOBJ;
  generateTextures := fun _ => test_generateTextures;
|}.

(** The same collaborators, with a parser that runs out of memory: an
    exception that is not a [po::error]. *)
Definition world_parser_fails : @World scalars := {|
  Disk := gmap string File;
  variables_map := list (string * string);
  parse_command_line := fun _ => Throw (other_exception "std::bad_alloc");
  vm_count := fun vm name => length (filter (fun nv => nv.1 = ("--" +:+ name)%string) vm);
  notify := test_notify;
  EVisibilityRemappingMethod_stringToEnum := remap_method_of_string;
  EImageColorSpace_stringToEnum := fun s => Ok s;
  EImageFileType_stringToEnum := fun s => Ok s;
  EUnwrapMethod_stringToEnum := unwrap_method_of_string;
  sfmDataIO_Load := test_load;
  MultiViewParams_ctor := fun sfm _ _ => Ok {| viewIndex := index_views (views sfm) |};
  clear := fun t => Ok (Texturing_new (texParams t));
  loadFromOBJ := test_loadFromOBJ;
  create_directory := test_create_directory;
  remapVisibilities := fun method refMesh t => Ok (VisibilityRemapper.remap method refMesh t);
  unwrap := fun _ _ t => Ok (test_unwrap t);
  computeAverageEdgeLength := fun _ => 2%float;
  subdivideMeshMaxEdgeLengthUpdatePtsCams := fun _ _ _ m => Ok m;
  updateAtlases := fun t => Ok (test_updateAtlases t);
  saveAsOBJ := test_saveAsOBJ;
  generateTextures := fun _ => test_generateTextures;
|}.

(** The same collaborators, with a subdivider that throws. *)
Definition world_subdivider_fails : @World scalars := {|
  Disk := gmap string File;
  variables_map := list (string * string);
  parse_command_line := fun argv => parse_pairs (tail argv);
  vm_count := fun vm name => length (filter (fun nv => nv.1 = ("--" +:+ name)%string) vm);
  notify := test_notify;
  EVisibilityRemappingMethod_stringToEnum := remap_method_of_string;
  EImageColorSpace_stringToEnum := fun s => Ok s;
  EImageFileType_stringToEnum := fun s => Ok s;
  EUnwrapMethod_stringToEnum := unwrap_method_of_string;
  sfmDataIO_Load := test_load;
  MultiViewParams_ctor := fun sfm _ _ => Ok {| viewIndex := index_views (views sfm) |};
  clear := fun t => Ok (Texturing_new (texParams t));
  loadFromOBJ := test_loadFromOBJ;
  create_directory := test_create_directory;
  remapVisibilities := fun method refMesh t => Ok (VisibilityRemapper.remap method refMesh t);
  unwrap := fun _ _ t => Ok (test_unwrap t);
  computeAverageEdgeLength := fun _ => 2%float;
  subdivideMeshMaxEdgeLengthUpdatePtsCams :=
    fun _ _ _ _ => Throw (other_exception "std::bad_alloc");
  updateAtlases := fun t => Ok (test_updateAtlases t);
  saveAsOBJ := test_saveAsOBJ;
  generateTextures := fun _ => test_generateTextures;
|}.

(** Three points, one triangle. *)
Definition P (x y z : Z) : Point3d := mkPoint3d (inject_Z x) (inject_Z y) (inject_Z z).

Definition one_triangle : Mesh :=
  {| pts := [P 0 0 0; P 4 0 0; P 0 4 0]; tris := [mkTriangle 0 1 2];
     pointsVisibilities := [] |}.

Definition three_uvs : list Point2d :=
  [mkPoint2d 0%Q 0%Q; mkPoint2d 1%Q 0%Q; mkPoint2d 0%Q 1%Q].

(** A scene of two views and two landmarks, the second seen by no view. *)
Definition scene : SfMData :=
  {| views := [10; 20];
     getLandmarks :=
       [(0, {| X := (1%Q, 0%Q, 0%Q);
               observations := [(10, mkPoint2d 0%Q 0%Q); (20, mkPoint2d 1%Q 1%Q)] |});
        (1, {| X := (0%Q, 3%Q, 0%Q); observations := [] |})] |}.

(** A scene whose landmark is observed by view 99, which the scene does not have. *)
Definition scene_unknown_view : SfMData :=
  {| views := [10; 20];
     getLandmarks :=
       [(0, {| X := (1%Q, 0%Q, 0%Q);
               observations := [(10, mkPoint2d 0%Q 0%Q); (99, mkPoint2d 1%Q 1%Q)] |})] |}.

Definition disk_no_uvs : gmap string File :=
  {[ "scene.sfm"%string := SceneFile scene;
     "mesh.obj"%string := MeshFile one_triangle [] ]}.

Definition disk_uvs : gmap string File :=
  {[ "scene.sfm"%string := SceneFile scene;
     "mesh.obj"%string := MeshFile one_triangle three_uvs ]}.

Definition disk_unknown_view : gmap string File :=
  {[ "scene.sfm"%string := SceneFile scene_unknown_view;
     "mesh.obj"%string := MeshFile one_triangle three_uvs ]}.

(** A mesh of [n] vertices, all at the origin, and no triangle. *)
Definition mesh_of_size (n : nat) : Mesh :=
  {| pts := replicate n (P 0 0 0); tris := []; pointsVisibilities := [] |}.

Definition test_options : Options :=
  {| verboseLevel := "info"; sfmDataFilename := "scene.sfm";
     inputMeshFilepath := "mesh.obj"; outputFolder := "out"; imagesFolder := "";
     outTextureFileTypeName := "png"; processColorspaceName := "sRGB";
     flipNormals := false; opt_correctEV := false;
     opt_texParams := default_texParams;
     unwrapMethod := "Basic"; opt_visibilityRemappingMethod := "PullPush" |}%string.

(** The local variables at the entry of the subdivision branch for a given
    mesh with UVs. *)
Definition locals_with (m : Mesh) : Locals :=
  {| var_opts := test_options; var_texParams := default_texParams;
     var_outputTextureFileType := "png"%string;
     var_sfmData := scene;
     var_mp := {| viewIndex := index_views (views scene) |};
     var_mesh := {| texParams := default_texParams; mesh := m;
                    uvCoords := three_uvs; atlases := [] |};
     var_refMesh := Mesh_new |}.

Definition argv_ok : list string :=
  ["texturing"; "--input"; "scene.sfm"; "--inputMesh"; "mesh.obj"; "--output"; "out"]%string.

(** A command line that names a remapping method that does not exist. *)
Definition argv_bad_remapping : list string :=
  argv_ok ++ ["--visibilityRemappingMethod"%string; "Nearest"%string].

(** A command line that asks for help. *)
Definition argv_help : list string := ["texturing"; "--help"]%string.

(** A command line that names a scene file that is not on the disk. *)
Definition argv_no_scene : list string :=
  ["texturing"; "--input"; "nothing.sfm"; "--inputMesh"; "mesh.obj"; "--output"; "out"]%string.

End TestWorld.



(** ** Notions used to state the properties *)

Section Properties.
Context {SC : Scalars} {W : World}.

(** [m] produces only events that satisfy [P], from every disk. *)
Definition emits_only {A} (P : Event -> Prop) (m : M A) : Prop :=
  forall d, Forall P (events (m d)).

(** Every [return] that [m] can execute returns a code that satisfies [P]. *)
Definition returns_only {A} (P : Z -> Prop) (m : M A) : Prop :=
  forall d c, outcome (m d) = Returned c -> P c.

Definition count_events (p : Event -> bool) (l : list Event) : nat :=
  length (List.filter p l).

(** The part of [main] that an event can come from.  The remap call is made
    from two places (lines 207 and 234) and has a phase of its own. *)
Inductive Phase :=
| PhStartup      (* lines 41-192 *)
| PhBuild        (* lines 194-205 *)
| PhRemap        (* lines 207 and 234 *)
| PhDecision     (* line 210 *)
| PhUnwrap       (* lines 211-215 *)
| PhSubdivide    (* lines 219-232 *)
| PhFinish.      (* lines 237-245 *)

Definition phase (ev : Event) : Phase :=
  match ev with
  | Cout_allParams | Cerr_error _ | Cout_usage | Cout_parameters | SetLogLevel _
  | LogError _ | call_parse_command_line _ | call_notify | call_Load _
  | call_MultiViewParams _ | call_clear | call_loadFromOBJ _ _
  | call_create_directory _ => PhStartup
  | call_getIndexFromViewId _ => PhBuild
  | call_remapVisibilities _ _ => PhRemap
  | call_hasUVs => PhDecision
  | LogInfo (StartUnwrapping _) | LogInfo UnwrappingDone | call_unwrap _ => PhUnwrap
  | LogInfo StartSubdivision | LogInfo (NbPtsInit _) | LogInfo (NbPtsVisibilitiesInit _)
  | LogInfo (NbPtsAfterSubdivision _) | LogInfo (NbTrisAfterSubdivision _)
  | LogInfo (NbPtsVisibilitiesAfterSubdivision _)
  | call_computeAverageEdgeLength | call_subdivide _ _ | call_updateAtlases => PhSubdivide
  | LogInfo (CannotReadSfMData _) => PhStartup
  | LogInfo GenerateTexturesMsg | LogInfo TaskDone | call_saveAsOBJ _ _ _
  | call_generateTextures _ _ => PhFinish
  end.



Definition in_unwrap_branch (ev : Event) : bool :=
  match phase ev with PhUnwrap => true | _ => false end.

Definition in_subdivide_branch (ev : Event) : bool :=
  match phase ev with PhSubdivide => true | _ => false end.

Definition is_hasUVs (ev : Event) : bool :=
  match ev with call_hasUVs => true | _ => false end.

Definition is_remap (ev : Event) : bool :=
  match ev with call_remapVisibilities _ _ => true | _ => false end.

Definition is_subdivide (ev : Event) : bool :=
  match ev with call_subdivide _ _ => true | _ => false end.

(** The events that follow the call of the subdivider. *)
Fixpoint after_subdivider (evs : list Event) : list Event :=
  match evs with
  | [] => []
  | call_subdivide _ _ :: rest => rest
  | _ :: rest => after_subdivider rest
  end.

Definition atlas_or_remap (ev : Event) : bool :=
  match ev with
  | call_updateAtlases | call_remapVisibilities _ _ => true
  | _ => false
  end.

(** The atlas and remap steps that follow the call of the subdivider, in the
    order they are made. *)
Definition steps_after_subdivider (evs : list Event) : list Event :=
  List.filter atlas_or_remap (after_subdivider evs).

(** The order of section 4.3 of the specification, steps 4 and 5: first the
    visibility remap, then the atlas layout. *)
Definition remap_then_atlases (evs : list Event) : Prop :=
  exists method refMesh,
    steps_after_subdivider evs = [call_remapVisibilities method refMesh; call_updateAtlases].

(** The count of remap calls as the specification states it: in a run that
    reaches the branch of line 210, two when the mesh has UVs and one when it
    has none. *)
Definition remap_count_as_specified (argv : list string) (d : Disk) : Prop :=
  forall L, outcome (before_branch argv d) = Normal L ->
            count_events is_remap (events (main argv d))
            = if hasUVs (var_mesh L) then 2%nat else 1%nat.

(** The thresholds of section 4.3 of the specification, steps 1 and 2, for
    the subdivision branch entered with the local variables [L]. *)
Definition thresholds_as_specified (L : Locals) (d : Disk) : Prop :=
  forall lengthThr maxPts,
    call_subdivide lengthThr maxPts ∈ events (subdivide_branch L d) ->
    lengthThr = fmul (computeAverageEdgeLength (mesh (var_mesh L))) f0_1 /\
    maxPts = Z.of_nat (length (pts (mesh (var_mesh L)))) * 100.

(** The call of line 227, for the local variables at the entry of the branch. *)
Definition subdivider_result (L : Locals) : result Mesh :=
  subdivideMeshMaxEdgeLengthUpdatePtsCams (var_mp L)
    (fmul (computeAverageEdgeLength (mesh (var_mesh L))) f0_1)
    (subdivideMaxPtsThr (length (pts (mesh (var_mesh L)))))
    (mesh (var_mesh L)).

(** The call of line 228 on the subdivided mesh. *)
Definition atlases_result (L : Locals) (me : Mesh) : result Texturing :=
  updateAtlases {| texParams := texParams (var_mesh L); mesh := me;
                   uvCoords := uvCoords (var_mesh L); atlases := atlases (var_mesh L) |}.

(** The view index an observation resolves to. *)
Definition resolves_to (mp : MultiViewParams) (ob : IndexT * Point2d) (i : Z) : Prop :=
  viewIndex mp !! ob.1 = Some i.

(** Every observation of every landmark of the scene resolves. *)
Definition all_views_resolve (mp : MultiViewParams) (landmarks : list (IndexT * Landmark)) : Prop :=
  Forall (fun lp => Forall (fun ob => is_Some (viewIndex mp !! ob.1)) (observations lp.2))
         landmarks.

(** Some observation of some landmark names a view that does not resolve. *)
Definition some_view_unresolved (mp : MultiViewParams) (landmarks : list (IndexT * Landmark)) : Prop :=
  exists lp vid, lp ∈ landmarks /\ vid ∈ (observations lp.2).*1 /\ viewIndex mp !! vid = None.

(** The exceptions the [catch] clauses of lines 135-146 handle. *)
Definition is_po_error (e : exn) : bool :=
  match e with
  | required_option _ | po_error _ => true
  | _ => false
  end.

(** The test of line 127. *)
Definition help_or_no_arguments (vm : variables_map) (argv : list string) : bool :=
  negb (Nat.eqb (vm_count vm "help"%string) 0) || (Z.of_nat (length argv) =? 1).

(** What the [try] block of lines 123-146 makes of an exception [e] thrown
    after the events [evs]: the two program_options classes are caught,
    reported and turned into [return EXIT_FAILURE]; anything else goes on. *)
Definition after_catch {A} (e : exn) (d : Disk) (evs : list Event) : Run A :=
  match e with
  | required_option what | po_error what =>
      mkRun (Returned EXIT_FAILURE) d (evs ++ [Cerr_error what; Cout_usage])
  | _ => mkRun (Thrown e) d evs
  end.

(** Lines 194-245: what follows the start-up. *)
Definition pipeline (L : Locals) : M Empty_set :=
  let* L := build_reference_cloud L in
  let* L := remap L in
  let* L := generate_uvs_or_subdivide L in
  save_and_texture L.





End Properties.

(** ** Further notions: writes, conversions, resolver calls *)

Section MoreProperties.
Context {SC : Scalars} {W : World}.

(** The calls that write to the disk: lines 184, 238 and 242. *)
Definition is_write (ev : Event) : bool :=
  match ev with
  | call_create_directory _ | call_saveAsOBJ _ _ _ | call_generateTextures _ _ => true
  | _ => false
  end.

(** The three conversions of lines 154-157, in the order they are made: the
    exception of the first one that throws, if any. *)
Definition conversion_failure (o : Options) : option exn :=
  match EVisibilityRemappingMethod_stringToEnum (opt_visibilityRemappingMethod o) with
  | Throw e => Some e
  | Ok _ =>
      match EImageColorSpace_stringToEnum (processColorspaceName o) with
      | Throw e => Some e
      | Ok _ =>
          match EImageFileType_stringToEnum (outTextureFileTypeName o) with
          | Throw e => Some e
          | Ok _ => None
          end
      end
  end.

(** The view identifiers of all the observations of all the landmarks, in
    the iteration order of the two nested loops of lines 194-201. *)
Definition observed_views (landmarks : list (IndexT * Landmark)) : list IndexT :=
  concat ((fun lp => (observations lp.2).*1) <$> landmarks).

(** The view identifiers a left-to-right traversal asks the resolver about:
    all of them up to and including the first that does not resolve. *)
Fixpoint asked_views (mp : MultiViewParams) (vids : list IndexT) : list IndexT :=
  match vids with
  | [] => []
  | vid :: rest =>
      vid :: match viewIndex mp !! vid with
             | Some _ => asked_views mp rest
             | None => []
             end
  end.

(** The events of lines 121-152 when the options parse and are accepted. *)
Definition configured_events (argv : list string) (o : Options) : list Event :=
  [call_parse_command_line argv; call_notify; Cout_parameters; SetLogLevel (verboseLevel o)].

(** The events of lines 162-181: the loads, up to the load of the mesh. *)
Definition load_events (o : Options) : list Event :=
  [call_Load (sfmDataFilename o); call_MultiViewParams (imagesFolder o); call_clear;
   call_loadFromOBJ (inputMeshFilepath o) (flipNormals o)].

(** [e.what()] of the two exception classes the [catch] clauses handle. *)
Definition po_what (e : exn) : string :=
  match e with
  | required_option what | po_error what => what
  | _ => ""%string
  end.

(** The exception [e] is thrown inside the [try] block of lines 123-134,
    after the events [evs]: by the parser (line 125), or by [po::notify]
    (line 133) when line 127 did not return. *)
Definition thrown_in_try (argv : list string) (e : exn) (evs : list Event) : Prop :=
  (parse_command_line argv = Throw e /\ evs = [call_parse_command_line argv]) \/
  (exists vm, parse_command_line argv = Ok vm /\ help_or_no_arguments vm argv = false /\
              notify vm = Throw e /\ evs = [call_parse_command_line argv; call_notify]).

(** The options are parsed and accepted: lines 125-133 complete with the
    bound variables [o]. *)
Definition options_accepted (argv : list string) (o : Options) : Prop :=
  exists vm, parse_command_line argv = Ok vm /\ help_or_no_arguments vm argv = false /\
             notify vm = Ok o.

(** The first view identifier of a list that does not resolve. *)
Fixpoint first_unresolved (mp : MultiViewParams) (vids : list IndexT) : option IndexT :=
  match vids with
  | [] => None
  | vid :: rest =>
      match viewIndex mp !! vid with
      | Some _ => first_unresolved mp rest
      | None => Some vid
      end
  end.

(** Lines 41-235: the run up to the end of the branch of line 210. *)
Definition before_finish (argv : list string) : M Locals :=
  let* L := before_branch argv in
  generate_uvs_or_subdivide L.

(** The events of lines 238-242 up to the call of [generateTextures]. *)
Definition finish_events (L : Locals) : list Event :=
  [call_saveAsOBJ (outputFolder (var_opts L)) "texturedMesh"%string
     (var_outputTextureFileType L);
   LogInfo GenerateTexturesMsg;
   call_generateTextures (outputFolder (var_opts L)) (var_outputTextureFileType L)].

End MoreProperties.
(** ** Reasoning about runs *)

Section RunLemmas.
Context {SC : Scalars} {W : World}.

Lemma bind_Normal {A B} (m : M A) (k : A -> M B) d a d1 e1 :
  m d = mkRun (Normal a) d1 e1 ->
  bind m k d = mkRun (outcome (k a d1)) (disk_after (k a d1)) (e1 ++ events (k a d1)).
Proof. intros H. unfold bind. rewrite H. by destruct (k a d1). Qed.

Lemma bind_Returned {A B} (m : M A) (k : A -> M B) d c d1 e1 :
  m d = mkRun (Returned c) d1 e1 -> bind m k d = mkRun (Returned c) d1 e1.
Proof. intros H. unfold bind. by rewrite H. Qed.

Lemma bind_Thrown {A B} (m : M A) (k : A -> M B) d e d1 e1 :
  m d = mkRun (Thrown e) d1 e1 -> bind m k d = mkRun (Thrown e) d1 e1.
Proof. intros H. unfold bind. by rewrite H. Qed.

Lemma bind_assoc {A B C} (m : M A) (k : A -> M B) (h : B -> M C) d :
  bind (bind m k) h d = bind m (fun a => bind (k a) h) d.
Proof.
  unfold bind. destruct (m d) as [[a|c|e] d1 e1]; [|done|done].
  destruct (k a d1) as [[b|c|e] d2 e2]; [|done|done].
  destruct (h b d2) as [o d3 e3]. by rewrite app_assoc.
Qed.

(** The events of a sequence: those of the first part, then those of the
    second if the first completes normally. *)
Lemma events_bind {A B} (m : M A) (k : A -> M B) d :
  events (bind m k d) =
  events (m d) ++ match outcome (m d) with
                  | Normal a => events (k a (disk_after (m d)))
                  | _ => []
                  end.
Proof.
  unfold bind. destruct (m d) as [[a|c|e] d1 e1]; simpl.
  - by destruct (k a d1).
  - by rewrite app_nil_r.
  - by rewrite app_nil_r.
Qed.

Lemma outcome_bind {A B} (m : M A) (k : A -> M B) d :
  outcome (bind m k d) =
  match outcome (m d) with
  | Normal a => outcome (k a (disk_after (m d)))
  | Returned c => Returned c
  | Thrown e => Thrown e
  end.
Proof. unfold bind. destruct (m d) as [[a|c|e] d1 e1]; simpl; [|done|done]. by destruct (k a d1). Qed.

(** *** Which events a piece of code can produce *)

Lemma emits_only_ret {A} P (a : A) : emits_only P (ret a).
Proof. intros d. constructor. Qed.

Lemma emits_only_return {A} P c : emits_only P (@return_ _ _ A c).
Proof. intros d. constructor. Qed.

Lemma emits_only_eval {A} P (r : result A) : emits_only P (eval r).
Proof. intros d. unfold eval. destruct r; constructor. Qed.

Lemma emits_only_emit P ev : P ev -> emits_only P (emit ev).
Proof. intros H d. by repeat constructor. Qed.

Lemma emits_only_call {A} P ev (r : result A) : P ev -> emits_only P (call ev r).
Proof. intros H d. unfold call. destruct r; by repeat constructor. Qed.

Lemma emits_only_call_read {A} P ev (f : Disk -> result A) : P ev -> emits_only P (call_read ev f).
Proof. intros H d. unfold call_read. by apply emits_only_call. Qed.

Lemma emits_only_call_write {A} P ev (f : Disk -> result A * Disk) :
  P ev -> emits_only P (call_write ev f).
Proof. intros H d. unfold call_write. destruct (f d) as [[a|e] d']; by repeat constructor. Qed.

Lemma emits_only_bind {A B} P (m : M A) (k : A -> M B) :
  emits_only P m -> (forall a, emits_only P (k a)) -> emits_only P (bind m k).
Proof.
  intros Hm Hk d. rewrite events_bind. apply Forall_app. split; [apply Hm|].
  destruct (outcome (m d)); [apply Hk|constructor|constructor].
Qed.

Lemma emits_only_try_catch {A} P (body : M A) handler :
  emits_only P body -> (forall e h, handler e = Some h -> emits_only P h) ->
  emits_only P (try_catch body handler).
Proof.
  intros Hb Hh d. unfold try_catch. specialize (Hb d).
  destruct (body d) as [[a|c|e] d1 e1]; try done.
  destruct (handler e) as [h|] eqn:E; [|done].
  specialize (Hh e h E d1). destruct (h d1) as [o d2 e2].
  apply Forall_app. by split.
Qed.

(** *** Which [return] statements a piece of code can execute *)

Lemma returns_only_ret {A} P (a : A) : returns_only P (ret a).
Proof. by intros d c. Qed.

Lemma returns_only_return {A} (P : Z -> Prop) c : P c -> returns_only P (@return_ _ _ A c).
Proof. intros H d c' [= <-]. done. Qed.

Lemma returns_only_eval {A} P (r : result A) : returns_only P (eval r).
Proof. intros d c. unfold eval. by destruct r. Qed.

Lemma returns_only_emit P ev : returns_only P (emit ev).
Proof. by intros d c. Qed.

Lemma returns_only_call {A} P ev (r : result A) : returns_only P (call ev r).
Proof. intros d c. unfold call. by destruct r. Qed.

Lemma returns_only_call_read {A} P ev (f : Disk -> result A) : returns_only P (call_read ev f).
Proof. intros d c. unfold call_read, call. by destruct (f d). Qed.

Lemma returns_only_call_write {A} P ev (f : Disk -> result A * Disk) :
  returns_only P (call_write ev f).
Proof. intros d c. unfold call_write. by destruct (f d) as [[a|e] d']. Qed.


(** *** Counting events *)

Lemma count_events_app p l1 l2 :
  count_events p (l1 ++ l2) = (count_events p l1 + count_events p l2)%nat.
Proof. unfold count_events. by rewrite List.filter_app, length_app. Qed.

Lemma filter_none (p : Event -> bool) l :
  Forall (fun ev => p ev = false) l -> List.filter p l = [].
Proof. induction 1 as [|ev l H _ IH]; simpl; [done|]. by rewrite H. Qed.

Lemma count_events_none p l :
  Forall (fun ev => p ev = false) l -> count_events p l = 0%nat.
Proof. intros H. unfold count_events. by rewrite filter_none. Qed.

End RunLemmas.

Create HintDb emits.
Create HintDb returns.

#[global] Hint Resolve emits_only_ret emits_only_return emits_only_eval emits_only_emit
  emits_only_call emits_only_call_read emits_only_call_write : emits.
#[global] Hint Resolve returns_only_ret returns_only_return returns_only_eval returns_only_emit
  returns_only_call returns_only_call_read returns_only_call_write : returns.

(** ** The integer budget of line 225 *)

Lemma static_cast_int_range u : - 2 ^ 31 <= static_cast_int u < 2 ^ 31.
Proof.
  unfold static_cast_int. pose proof (Z.mod_pos_bound u (2 ^ 32) ltac:(lia)).
  destruct (Z.ltb_spec (u mod 2 ^ 32) (2 ^ 31)); lia.
Qed.

Lemma static_cast_int_small u : 0 <= u < 2 ^ 31 -> static_cast_int u = u.
Proof.
  intros H. unfold static_cast_int. rewrite Z.mod_small by lia.
  destruct (Z.ltb_spec u (2 ^ 31)); lia.
Qed.

Lemma subdivideMaxPtsThr_fits n :
  Z.of_nat n <= 21474836 -> subdivideMaxPtsThr n = 100 * Z.of_nat n.
Proof.
  intros H. unfold subdivideMaxPtsThr, size_t_mul.
  rewrite Z.mod_small by lia. rewrite static_cast_int_small by lia. lia.
Qed.


(** ** The reference-cloud build loop (lines 194-205) *)

Section ReferenceCloud.
Context {SC : Scalars} {W : World}.

(** The inner loop either resolves every observation, in order, or stops at
    the first view identifier that does not resolve and throws. *)
Lemma observation_loop_cases mp obs pv d :
  (exists idx evs, Forall2 (resolves_to mp) obs idx /\
     observation_loop mp obs pv d = mkRun (Normal (pv ++ idx)) d evs /\
     Forall (fun ev => phase ev = PhBuild) evs) \/
  (exists vid evs, vid ∈ obs.*1 /\ viewIndex mp !! vid = None /\
     observation_loop mp obs pv d = mkRun (Thrown (ResolutionError vid)) d evs /\
     Forall (fun ev => phase ev = PhBuild) evs).
Proof.
  revert pv. induction obs as [|ob rest IH]; intros pv; simpl.
  - left. exists [], []. rewrite app_nil_r. by repeat split.
  - unfold getIndexFromViewId. destruct (viewIndex mp !! ob.1) as [i|] eqn:E.
    + destruct (IH (pv ++ [i])) as [(idx & evs & HF & Hrun & Hev)|(vid & evs & Hin & Hno & Hrun & Hev)].
      * left. exists (i :: idx), (call_getIndexFromViewId ob.1 :: evs).
        split; [by constructor|]. split; [|by constructor].
        erewrite bind_Normal by reflexivity. rewrite Hrun. simpl.
        by rewrite <- app_assoc.
      * right. exists vid, (call_getIndexFromViewId ob.1 :: evs).
        split; [change (vid ∈ ob.1 :: rest.*1); apply elem_of_cons; by right|]. split; [done|]. split; [|by constructor].
        erewrite bind_Normal by reflexivity. by rewrite Hrun.
    + right. exists ob.1, [call_getIndexFromViewId ob.1].
      split; [change (ob.1 ∈ ob.1 :: rest.*1); apply elem_of_cons; by left|]. split; [done|]. split; [done|]. by repeat constructor.
Qed.

(** The outer loop: one point and one visibility set per landmark, in order,
    or the exception of the inner loop. *)
Lemma landmark_loop_cases mp lms refMesh d :
  (exists vis evs, Forall2 (fun lp v => Forall2 (resolves_to mp) (observations lp.2) v) lms vis /\
     landmark_loop mp lms refMesh d =
       mkRun (Normal {| pts := pts refMesh ++ ((fun lp => landmark_point lp.2) <$> lms);
                        tris := tris refMesh;
                        pointsVisibilities := pointsVisibilities refMesh ++ vis |}) d evs /\
     Forall (fun ev => phase ev = PhBuild) evs) \/
  (exists lp vid evs, lp ∈ lms /\ vid ∈ (observations lp.2).*1 /\ viewIndex mp !! vid = None /\
     landmark_loop mp lms refMesh d = mkRun (Thrown (ResolutionError vid)) d evs /\
     Forall (fun ev => phase ev = PhBuild) evs).
Proof.
  revert refMesh. induction lms as [|lp rest IH]; intros refMesh; simpl.
  - left. exists [], []. rewrite !app_nil_r. split; [constructor|]. split; [|constructor].
    by destruct refMesh.
  - destruct (observation_loop_cases mp (observations lp.2) [] d)
      as [(idx & evs & HF & Hrun & Hev)|(vid & evs & Hin & Hno & Hrun & Hev)].
    + simpl in Hrun. erewrite bind_Normal by exact Hrun.
      match goal with |- context [landmark_loop mp rest ?m d] => destruct (IH m)
        as [(vis & evs' & HF' & Hrun' & Hev')|(lp' & vid & evs' & Hin & Hin' & Hno & Hrun' & Hev')] end.
      * left. exists (idx :: vis), (evs ++ evs'). split; [by constructor|].
        split; [|by apply Forall_app]. rewrite Hrun'. simpl.
        by rewrite <- !app_assoc.
      * right. exists lp', vid, (evs ++ evs'). split; [apply elem_of_cons; by right|].
        split; [done|]. split; [done|]. split; [|by apply Forall_app]. by rewrite Hrun'.
    + right. exists lp, vid, evs. split; [apply elem_of_cons; by left|]. split; [done|]. split; [done|].
      split; [|done]. by erewrite bind_Thrown by exact Hrun.
Qed.

Lemma Forall2_resolves_all mp obs idx :
  Forall2 (resolves_to mp) obs idx -> Forall (fun ob => is_Some (viewIndex mp !! ob.1)) obs.
Proof. induction 1; constructor; [by eexists|done]. Qed.

(** C2: given [N] landmarks whose observations all resolve, the build loop
    completes and leaves a reference cloud with exactly [N] points and [N]
    visibility sets; the points are the landmark positions in iteration
    order, the i-th visibility set holds the view indices of the i-th
    landmark's observations, and a landmark without observations gets an
    empty visibility set at its position. *)
Theorem C2_reference_cloud_one_entry_per_landmark mp
    (landmarks : list (IndexT * Landmark)) d :
  all_views_resolve mp landmarks ->
  exists refMesh,
    outcome (landmark_loop mp landmarks Mesh_new d) = Normal refMesh /\
    length (pts refMesh) = length landmarks /\
    length (pointsVisibilities refMesh) = length landmarks /\
    pts refMesh = (fun lp => landmark_point lp.2) <$> landmarks /\
    Forall2 (fun lp v => Forall2 (resolves_to mp) (observations lp.2) v)
            landmarks (pointsVisibilities refMesh) /\
    (forall i lp, landmarks !! i = Some lp -> observations lp.2 = [] ->
                  pointsVisibilities refMesh !! i = Some []).
Proof.
  intros Hall.
  destruct (landmark_loop_cases mp landmarks Mesh_new d)
    as [(vis & evs & HF & Hrun & _)|(lp & vid & evs & Hin & Hin' & Hno & _)].
  - eexists. rewrite Hrun. split; [done|]. unfold Mesh_new. cbn [pts pointsVisibilities app].
    split; [by rewrite length_fmap|]. split; [symmetry; exact (Forall2_length _ _ _ HF)|].
    split; [done|]. split; [done|].
    intros i lp Hi Hobs.
    destruct (Forall2_lookup_l _ _ _ _ _ HF Hi) as (v & Hv & Hfv).
    rewrite Hobs in Hfv. inversion Hfv. subst. exact Hv.
  - exfalso. unfold all_views_resolve in Hall. rewrite Forall_forall in Hall. specialize (Hall lp Hin).
    rewrite Forall_forall in Hall. apply list_elem_of_fmap in Hin' as (ob & -> & Hob).
    destruct (Hall ob Hob) as [i Hi]. congruence.
Qed.

End ReferenceCloud.

(** ** The blocks of [main] *)

Section Blocks.
Context {SC : Scalars} {W : World}.

Lemma bind_Normal_inv {A B} (m : M A) (k : A -> M B) d b d2 evs :
  bind m k d = mkRun (Normal b) d2 evs ->
  exists a d1 e1 e2,
    m d = mkRun (Normal a) d1 e1 /\ k a d1 = mkRun (Normal b) d2 e2 /\ evs = e1 ++ e2.
Proof.
  unfold bind. destruct (m d) as [[a|c|e] d1 e1] eqn:E; [|done|done].
  destruct (k a d1) as [o d2' e2] eqn:E2. intros [= -> -> <-].
  by exists a, d1, e1, e2.
Qed.

(** *** Phases *)

Ltac emits :=
  repeat first
    [ apply emits_only_bind; [|intros ?]
    | apply emits_only_try_catch
    | solve [eauto with emits]
    | match goal with
      | |- emits_only _ (if ?b then _ else _) => destruct b
      | |- emits_only _ (match ?x with _ => _ end) => destruct x
      end ].

Lemma parse_options_phase argv : emits_only (fun ev => phase ev = PhStartup) (parse_options argv).
Proof.
  unfold parse_options. emits.
  intros e h. unfold catch_clauses. destruct e; intros [= <-]; emits.
Qed.

Lemma configure_phase o : emits_only (fun ev => phase ev = PhStartup) (configure o).
Proof. unfold configure. emits. Qed.

Lemma load_inputs_phase o tp ft : emits_only (fun ev => phase ev = PhStartup) (load_inputs o tp ft).
Proof. unfold load_inputs. emits. Qed.

Lemma startup_phase argv : emits_only (fun ev => phase ev = PhStartup) (startup argv).
Proof.
  unfold startup. apply emits_only_bind; [apply parse_options_phase|intros o].
  apply emits_only_bind; [apply configure_phase|intros cfg]. apply load_inputs_phase.
Qed.

Lemma landmark_loop_phase mp lms refMesh :
  emits_only (fun ev => phase ev = PhBuild) (landmark_loop mp lms refMesh).
Proof.
  intros d. destruct (landmark_loop_cases mp lms refMesh d)
    as [(vis & evs & _ & -> & Hev)|(lp & vid & evs & _ & _ & _ & -> & Hev)]; done.
Qed.

Lemma build_reference_cloud_phase L :
  emits_only (fun ev => phase ev = PhBuild) (build_reference_cloud L).
Proof. unfold build_reference_cloud. apply emits_only_bind; [apply landmark_loop_phase|]. intros; emits. Qed.

Lemma remap_phase L : emits_only (fun ev => phase ev = PhRemap) (remap L).
Proof. unfold remap. emits. Qed.

Lemma unwrap_branch_phase L : emits_only (fun ev => phase ev = PhUnwrap) (unwrap_branch L).
Proof. unfold unwrap_branch. emits. Qed.

Lemma subdivide_branch_phase L :
  emits_only (fun ev => phase ev = PhSubdivide \/ phase ev = PhRemap) (subdivide_branch L).
Proof.
  unfold subdivide_branch.
  do 9 (apply emits_only_bind; [solve [eauto with emits]|intros ?]).
  intros d. eapply Forall_impl; [apply remap_phase|]. by right.
Qed.

Lemma save_and_texture_phase L : emits_only (fun ev => phase ev = PhFinish) (save_and_texture L).
Proof. unfold save_and_texture. emits. Qed.

Lemma generate_uvs_or_subdivide_phase L :
  emits_only (fun ev => phase ev = PhDecision \/ phase ev = PhUnwrap \/
                        phase ev = PhSubdivide \/ phase ev = PhRemap)
             (generate_uvs_or_subdivide L).
Proof.
  unfold generate_uvs_or_subdivide. apply emits_only_bind; [emits; by left|intros _].
  intros d. destruct (negb _).
  - eapply Forall_impl; [apply unwrap_branch_phase|]. simpl. tauto.
  - eapply Forall_impl; [apply subdivide_branch_phase|]. simpl. tauto.
Qed.

Lemma before_branch_phase argv :
  emits_only (fun ev => phase ev = PhStartup \/ phase ev = PhBuild \/ phase ev = PhRemap)
             (before_branch argv).
Proof.
  unfold before_branch. apply emits_only_bind.
  { intros d. eapply Forall_impl; [apply startup_phase|]. simpl. tauto. }
  intros L. apply emits_only_bind.
  { intros d. eapply Forall_impl; [apply build_reference_cloud_phase|]. simpl. tauto. }
  intros L' d. eapply Forall_impl; [apply remap_phase|]. simpl. tauto.
Qed.

(** *** Returns *)









End Blocks.

(** ** The decision of line 210 and the two branches *)

Section Decision.
Context {SC : Scalars} {W : World}.

Lemma events_remap L d :
  events (remap L d) =
  [call_remapVisibilities (visibilityRemappingMethod (var_texParams L)) (var_refMesh L)].
Proof. unfold remap, bind, call. by destruct (remapVisibilities _ _ _). Qed.

Lemma remap_Normal_inv L d L' d' evs :
  remap L d = mkRun (Normal L') d' evs ->
  d' = d /\ var_refMesh L' = var_refMesh L /\ var_texParams L' = var_texParams L /\
  var_opts L' = var_opts L /\ var_mp L' = var_mp L /\ var_sfmData L' = var_sfmData L /\
  remapVisibilities (visibilityRemappingMethod (var_texParams L)) (var_refMesh L) (var_mesh L)
    = Ok (var_mesh L').
Proof.
  unfold remap, bind, call. destruct (remapVisibilities _ _ _) as [m|e]; simpl; [|done].
  by intros [= <- <- _].
Qed.

(** [main] from the decision on, when the run reaches it. *)
Lemma main_from_decision argv d L d1 evs :
  before_branch argv d = mkRun (Normal L) d1 evs ->
  events (main argv d) =
  evs ++ events ((let* L := generate_uvs_or_subdivide L in save_and_texture L) d1).
Proof. intros H. unfold main. by erewrite bind_Normal by exact H. Qed.

Lemma events_from_decision L d :
  exists finish,
    events ((let* L := generate_uvs_or_subdivide L in save_and_texture L) d) =
    call_hasUVs :: events ((if negb (hasUVs (var_mesh L)) then unwrap_branch L
                            else subdivide_branch L) d) ++ finish /\
    Forall (fun ev => phase ev = PhFinish) finish.
Proof.
  rewrite events_bind. unfold generate_uvs_or_subdivide at 1.
  rewrite events_bind. simpl. eexists. split; [reflexivity|].
  destruct (outcome _); [apply save_and_texture_phase|constructor|constructor].
Qed.


(** The subdivision branch, case by case. *)
Lemma subdivide_branch_run L d :
  subdivide_branch L d =
  let m0 := mesh (var_mesh L) in
  let before :=
    [LogInfo StartSubdivision;
     LogInfo (NbPtsInit (length (pts m0)));
     LogInfo (NbPtsVisibilitiesInit (length (pointsVisibilities m0)));
     call_computeAverageEdgeLength;
     call_subdivide (fmul (computeAverageEdgeLength m0) f0_1)
                    (subdivideMaxPtsThr (length (pts m0)))] in
  match subdivider_result L with
  | Throw e => mkRun (Thrown e) d before
  | Ok me =>
      match atlases_result L me with
      | Throw e => mkRun (Thrown e) d (before ++ [call_updateAtlases])
      | Ok m =>
          let r := remap (set_mesh L m) d in
          mkRun (outcome r) (disk_after r)
            (before ++
             [call_updateAtlases;
              LogInfo (NbPtsAfterSubdivision (length (pts (mesh m))));
              LogInfo (NbTrisAfterSubdivision (length (tris (mesh m))));
              LogInfo (NbPtsVisibilitiesAfterSubdivision (length (pointsVisibilities (mesh m))));
              call_remapVisibilities (visibilityRemappingMethod (var_texParams L))
                (var_refMesh L)])
      end
  end.
Proof.
  unfold subdivide_branch, subdivider_result, atlases_result.
  do 4 (erewrite bind_Normal by reflexivity; cbn [outcome disk_after events]).
  destruct (subdivideMeshMaxEdgeLengthUpdatePtsCams _ _ _ _) as [me|e] eqn:Es.
  2:{ by erewrite bind_Thrown by reflexivity. }
  erewrite bind_Normal by reflexivity.
  cbn [outcome disk_after events].
  destruct (updateAtlases _) as [m|e] eqn:Ea.
  2:{ by erewrite bind_Thrown by reflexivity. }
  erewrite bind_Normal by reflexivity.
  cbn [outcome disk_after events].
  do 3 (erewrite bind_Normal by reflexivity; cbn [outcome disk_after events]).
  pose proof (events_remap (set_mesh L m) d) as Er.
  cbn zeta. rewrite Er. reflexivity.
Qed.


(** The events of the subdivision branch when lines 227 and 228 complete. *)
Lemma events_subdivide_branch_complete L d me m :
  subdivider_result L = Ok me -> atlases_result L me = Ok m ->
  events (subdivide_branch L d) =
  [LogInfo StartSubdivision;
   LogInfo (NbPtsInit (length (pts (mesh (var_mesh L)))));
   LogInfo (NbPtsVisibilitiesInit (length (pointsVisibilities (mesh (var_mesh L)))));
   call_computeAverageEdgeLength;
   call_subdivide (fmul (computeAverageEdgeLength (mesh (var_mesh L))) f0_1)
                  (subdivideMaxPtsThr (length (pts (mesh (var_mesh L)))));
   call_updateAtlases;
   LogInfo (NbPtsAfterSubdivision (length (pts (mesh m))));
   LogInfo (NbTrisAfterSubdivision (length (tris (mesh m))));
   LogInfo (NbPtsVisibilitiesAfterSubdivision (length (pointsVisibilities (mesh m))));
   call_remapVisibilities (visibilityRemappingMethod (var_texParams L)) (var_refMesh L)].
Proof. intros Hs Ha. rewrite subdivide_branch_run. cbn zeta. by rewrite Hs, Ha. Qed.

End Decision.

Section Branches.
Context {SC : Scalars} {W : World}.

Lemma build_reference_cloud_Normal_inv L d L' d' evs :
  build_reference_cloud L d = mkRun (Normal L') d' evs ->
  d' = d /\
  L' = set_refMesh L (var_refMesh L') /\
  outcome (landmark_loop (var_mp L) (getLandmarks (var_sfmData L)) (var_refMesh L) d)
    = Normal (var_refMesh L').
Proof.
  unfold build_reference_cloud. intros H.
  apply bind_Normal_inv in H as (r & d1 & e1 & e2 & Hloop & Hret & _).
  unfold ret in Hret. injection Hret as <- <- _.
  rewrite Hloop. simpl. split; [|done].
  destruct (landmark_loop_cases (var_mp L) (getLandmarks (var_sfmData L)) (var_refMesh L) d)
    as [(vis & evs' & _ & E & _)|(lp & vid & evs' & _ & _ & _ & E & _)];
    rewrite E in Hloop; by injection Hloop.
Qed.

(** A run that reaches line 210 went through the start-up, the build loop
    and the first remap; its last event is the call of the first remap, on
    the cloud the loop built, and there is no other remap before. *)
Lemma before_branch_inv argv d L d1 evs :
  before_branch argv d = mkRun (Normal L) d1 evs ->
  exists L0 d0 e0 e1,
    startup argv d = mkRun (Normal L0) d0 e0 /\
    d1 = d0 /\
    outcome (landmark_loop (var_mp L0) (getLandmarks (var_sfmData L0)) (var_refMesh L0) d0)
      = Normal (var_refMesh L) /\
    var_mp L = var_mp L0 /\ var_sfmData L = var_sfmData L0 /\ var_opts L = var_opts L0 /\
    evs = e0 ++ e1 ++
          [call_remapVisibilities (visibilityRemappingMethod (var_texParams L)) (var_refMesh L)] /\
    Forall (fun ev => phase ev = PhStartup) e0 /\
    Forall (fun ev => phase ev = PhBuild) e1.
Proof.
  unfold before_branch. intros H.
  apply bind_Normal_inv in H as (L0 & d0 & e0 & e' & Hs & H & ->).
  apply bind_Normal_inv in H as (L1 & d0' & e1 & e2 & Hb & Hr & ->).
  pose proof (startup_phase argv d) as P0. rewrite Hs in P0.
  pose proof (build_reference_cloud_phase L0 d0) as P1. rewrite Hb in P1.
  pose proof (events_remap L1 d0') as E2. rewrite Hr in E2. simpl in E2.
  apply build_reference_cloud_Normal_inv in Hb as (-> & HL1 & Hloop).
  apply remap_Normal_inv in Hr as (-> & Hrm & Htp & Ho & Hmp & Hsfm & _).
  exists L0, d0, e0, e1. rewrite Hrm, Htp, Hmp, Hsfm, Ho, E2, HL1. simpl.
  repeat split; done.
Qed.

Lemma after_subdivider_app l1 l2 :
  Forall (fun ev => is_subdivide ev = false) l1 ->
  after_subdivider (l1 ++ l2) = after_subdivider l2.
Proof.
  induction 1 as [|ev l H _ IH]; simpl; [done|]. by destruct ev.
Qed.

(** The call of the subdivider is the only one in the subdivision branch,
    and its arguments are the two values computed in lines 224 and 225. *)
Lemma subdivide_call_in_branch L d lengthThr maxPts :
  call_subdivide lengthThr maxPts ∈ events (subdivide_branch L d) <->
  lengthThr = fmul (computeAverageEdgeLength (mesh (var_mesh L))) f0_1 /\
  maxPts = subdivideMaxPtsThr (length (pts (mesh (var_mesh L)))).
Proof.
  assert (E : exists rest,
    events (subdivide_branch L d) =
      [LogInfo StartSubdivision;
       LogInfo (NbPtsInit (length (pts (mesh (var_mesh L)))));
       LogInfo (NbPtsVisibilitiesInit (length (pointsVisibilities (mesh (var_mesh L)))));
       call_computeAverageEdgeLength;
       call_subdivide (fmul (computeAverageEdgeLength (mesh (var_mesh L))) f0_1)
                      (subdivideMaxPtsThr (length (pts (mesh (var_mesh L)))))] ++ rest /\
    Forall (fun ev => is_subdivide ev = false) rest).
  { rewrite subdivide_branch_run. cbn zeta.
    destruct (subdivider_result L) as [me|e]; [|by exists []].
    destruct (atlases_result L me) as [m|e]; eexists; (split; [done|by repeat constructor]). }
  destruct E as (rest & -> & Hrest). split.
  - intros Hin. apply elem_of_app in Hin as [Hin|Hin].
    + repeat (apply elem_of_cons in Hin as [Hin|Hin]; [try discriminate|]).
      * by injection Hin as -> ->.
      * by apply elem_of_nil in Hin.
    + rewrite Forall_forall in Hrest. by specialize (Hrest _ Hin).
  - intros [-> ->]. apply elem_of_app. left. do 4 apply list_elem_of_further.
    apply list_elem_of_here.
Qed.

Lemma count_remap_subdivide_branch L d :
  count_events is_remap (events (subdivide_branch L d)) =
  match subdivider_result L with
  | Ok me => match atlases_result L me with Ok _ => 1%nat | Throw _ => 0%nat end
  | Throw _ => 0%nat
  end.
Proof.
  rewrite subdivide_branch_run. cbn zeta.
  destruct (subdivider_result L) as [me|e]; [|done].
  by destruct (atlases_result L me).
Qed.

Lemma subdivideMaxPtsThr_exact_iff n :
  subdivideMaxPtsThr n = 100 * Z.of_nat n <-> Z.of_nat n <= 21474836.
Proof.
  split; [|apply subdivideMaxPtsThr_fits].
  intros E. pose proof (static_cast_int_range (size_t_mul (Z.of_nat n) 100)) as R.
  unfold subdivideMaxPtsThr in E. rewrite E in R. lia.
Qed.

End Branches.

(** ** The start-up (lines 41-192) and the exits of [main] *)

Section Startup.
Context {SC : Scalars} {W : World}.

Lemma bind_ext {A B} (m : M A) (k k' : A -> M B) d :
  (forall a d', k a d' = k' a d') -> bind m k d = bind m k' d.
Proof. intros H. unfold bind. destruct (m d) as [[a|c|e] d1 e1]; by rewrite ?H. Qed.

Lemma main_startup_pipeline argv d : main argv d = bind (startup argv) pipeline d.
Proof.
  unfold main, before_branch. rewrite bind_assoc. apply bind_ext. intros L d'.
  unfold pipeline. by rewrite bind_assoc.
Qed.

(** The option parsing, case by case. *)
Lemma parse_options_run argv d :
  parse_options argv d =
  match parse_command_line argv with
  | Throw e => after_catch e d [call_parse_command_line argv]
  | Ok vm =>
      if help_or_no_arguments vm argv
      then mkRun (Returned EXIT_SUCCESS) d [call_parse_command_line argv; Cout_allParams]
      else match notify vm with
           | Ok o => mkRun (Normal o) d [call_parse_command_line argv; call_notify]
           | Throw e => after_catch e d [call_parse_command_line argv; call_notify]
           end
  end.
Proof.
  unfold parse_options, try_catch, bind, call, help_or_no_arguments.
  destruct (parse_command_line argv) as [vm|e]; simpl.
  - destruct (negb _ || _); simpl; [done|].
    destruct (notify vm) as [o|e]; simpl; [done|]. by destruct e.
  - by destruct e.
Qed.

Lemma configure_keeps_disk o d : disk_after (configure o d) = d.
Proof.
  unfold configure, bind, eval. simpl.
  destruct (EVisibilityRemappingMethod_stringToEnum _); simpl; [|done].
  destruct (EImageColorSpace_stringToEnum _); simpl; [|done].
  by destruct (EImageFileType_stringToEnum _).
Qed.

(** What it takes to reach line 192, and what the local variables and the
    disk are there: the only change to the disk is the creation of the
    output folder. *)
Lemma startup_Normal_inv argv d L d1 evs :
  startup argv d = mkRun (Normal L) d1 evs ->
  exists vm m0,
    parse_command_line argv = Ok vm /\
    help_or_no_arguments vm argv = false /\
    notify vm = Ok (var_opts L) /\
    outcome (configure (var_opts L) d) = Normal (var_texParams L, var_outputTextureFileType L) /\
    sfmDataIO_Load (sfmDataFilename (var_opts L)) d = Ok (Some (var_sfmData L)) /\
    MultiViewParams_ctor (var_sfmData L) (imagesFolder (var_opts L)) d = Ok (var_mp L) /\
    clear (Texturing_new (var_texParams L)) = Ok m0 /\
    loadFromOBJ (inputMeshFilepath (var_opts L)) (flipNormals (var_opts L)) d m0
      = Ok (var_mesh L) /\
    create_directory (outputFolder (var_opts L)) d = (Ok tt, d1) /\
    var_refMesh L = Mesh_new.
Proof.
  unfold startup. intros H.
  apply bind_Normal_inv in H as (o & dp & ep & e' & Hp & H & _).
  rewrite parse_options_run in Hp.
  destruct (parse_command_line argv) as [vm|e]; [|by destruct e].
  destruct (help_or_no_arguments vm argv) eqn:Hh; [done|].
  destruct (notify vm) as [o'|e] eqn:Hn; [|by destruct e].
  injection Hp as Ho Hd _. subst o' dp.
  apply bind_Normal_inv in H as ([tp ft] & dc & ec & e'' & Hc & H & _).
  pose proof (configure_keeps_disk o d) as Hd. rewrite Hc in Hd. simpl in Hd. subst dc.
  unfold load_inputs in H. cbn [fst snd] in H.
  apply bind_Normal_inv in H as (loaded & dl & el & e3 & Hl & H & _).
  unfold call_read, call in Hl.
  destruct (sfmDataIO_Load _ _) as [l|e] eqn:El; [|done]. injection Hl as Hl1 Hl2 _. subst l dl.
  destruct loaded as [sfm|].
  2:{ apply bind_Normal_inv in H as (? & ? & ? & ? & _ & H & _). discriminate H. }
  apply bind_Normal_inv in H as (mp & dm & em & e4 & Hm & H & _).
  unfold call_read, call in Hm.
  destruct (MultiViewParams_ctor _ _ _) as [mp'|e] eqn:Em; [|done]. injection Hm as Hm1 Hm2 _. subst mp' dm.
  apply bind_Normal_inv in H as (m0 & d0 & e0 & e5 & H0 & H & _).
  unfold call in H0. destruct (clear _) as [m0'|e] eqn:E0; [|done]. injection H0 as H01 H02 _. subst m0' d0.
  apply bind_Normal_inv in H as (m1 & dl' & el' & e6 & H1 & H & _).
  unfold call_read, call in H1.
  destruct (loadFromOBJ _ _ _ _) as [m1'|e] eqn:E1; [|done]. injection H1 as H11 H12 _. subst m1' dl'.
  apply bind_Normal_inv in H as ([] & dd & ed & e7 & Hd & H & _).
  unfold call_write in Hd.
  destruct (create_directory _ _) as [[[]|e] d'] eqn:Ed; [|done]. injection Hd as Hd1 _. subst d'.
  unfold ret in H. injection H as HL Hdd _. subst L dd.
  cbn [var_opts var_texParams var_outputTextureFileType var_sfmData var_mp var_mesh var_refMesh].
  exists vm, m0. rewrite Hc. repeat split; done.
Qed.




End Startup.

Section Exits.
Context {SC : Scalars} {W : World}.







End Exits.

(** ** The properties of the pipeline *)

Section Claims.
Context {SC : Scalars} {W : World}.

(** Decide a classifier on all the events of a list from the phases they
    belong to. *)
Ltac by_phase H :=
  eapply Forall_impl; [exact H|];
  let ev := fresh "ev" in
  intros ev; destruct ev as [| | | | |[]|[]| | | | | | | | | | | | | | | | ];
  cbn; intuition discriminate.

Ltac count_zero H := apply count_events_none; by_phase H.


(** C5, as the code has it: in a run that reaches line 210 the visibility
    remap has been called once (line 207).  When the mesh has no UVs it is
    not called again: once in the whole run.  When the mesh has UVs it is
    called a second time (line 234) exactly when the subdivider and the
    atlas update both return: twice in the whole run; when one of the two
    throws, the run is terminated before line 234 and has called it once. *)
Theorem C5_remap_count_by_branch argv d L :
  outcome (before_branch argv d) = Normal L ->
  count_events is_remap (events (main argv d)) =
  if hasUVs (var_mesh L) then
    match subdivider_result L with
    | Ok me => match atlases_result L me with Ok _ => 2%nat | Throw _ => 1%nat end
    | Throw _ => 1%nat
    end
  else 1%nat.
Proof.
  intros Ho.
  destruct (before_branch argv d) as [o d1 evs] eqn:H. simpl in Ho. subst o.
  rewrite (main_from_decision _ _ _ _ _ H).
  destruct (before_branch_inv _ _ _ _ _ H) as (L0 & d0 & e0 & e1 & _ & _ & _ & _ & _ & _ & -> & P0 & P1).
  destruct (events_from_decision L d1) as (finish & -> & Hfin).
  change (call_hasUVs :: ?b ++ finish) with ([call_hasUVs] ++ b ++ finish).
  rewrite !count_events_app.
  rewrite (count_events_none is_remap e0) by by_phase P0.
  rewrite (count_events_none is_remap e1) by by_phase P1.
  rewrite (count_events_none is_remap finish) by by_phase Hfin.
  change (count_events is_remap [call_remapVisibilities _ _]) with 1%nat.
  change (count_events is_remap [call_hasUVs]) with 0%nat.
  destruct (hasUVs (var_mesh L)); cbn [negb].
  - rewrite count_remap_subdivide_branch.
    destruct (subdivider_result L) as [me|e]; [|reflexivity].
    by destruct (atlases_result L me).
  - pose proof (unwrap_branch_phase L d1) as Hph.
    by rewrite (count_events_none is_remap (events _)) by by_phase Hph.
Qed.

(** C3, as the code has it: in the subdivision branch, when the subdivider
    and the atlas update complete, the steps that follow the call of the
    subdivider are, in this order, the recomputation of the atlas layout
    (line 228) and then the visibility remap (line 234).  The remap is given
    the reference cloud the first remap was given, which is the cloud the
    build loop made from the landmarks. *)
Theorem C3_atlases_then_remap argv d L me m :
  outcome (before_branch argv d) = Normal L ->
  hasUVs (var_mesh L) = true ->
  subdivider_result L = Ok me -> atlases_result L me = Ok m ->
  steps_after_subdivider (events (main argv d)) =
    [call_updateAtlases;
     call_remapVisibilities (visibilityRemappingMethod (var_texParams L)) (var_refMesh L)] /\
  last (events (before_branch argv d)) =
    Some (call_remapVisibilities (visibilityRemappingMethod (var_texParams L)) (var_refMesh L)) /\
  exists d0,
    outcome (landmark_loop (var_mp L) (getLandmarks (var_sfmData L)) Mesh_new d0)
      = Normal (var_refMesh L).
Proof.
  intros Ho Huv Hs Ha.
  destruct (before_branch argv d) as [o d1 evs] eqn:H. simpl in Ho. subst o.
  cbn [events]. rewrite (main_from_decision _ _ _ _ _ H).
  pose proof (before_branch_phase argv d) as Hevs. rewrite H in Hevs. simpl in Hevs.
  destruct (events_from_decision L d1) as (finish & -> & Hfin).
  rewrite Huv. cbn [negb]. rewrite (events_subdivide_branch_complete L d1 me m Hs Ha).
  split; [|split].
  - unfold steps_after_subdivider. rewrite after_subdivider_app by by_phase Hevs.
    cbn [after_subdivider app]. cbn [List.filter atlas_or_remap].
    rewrite filter_none by by_phase Hfin. done.
  - destruct (before_branch_inv _ _ _ _ _ H) as (L0 & d0 & e0 & e1 & _ & _ & _ & _ & _ & _ & -> & _).
    by rewrite app_assoc, last_snoc.
  - destruct (before_branch_inv _ _ _ _ _ H) as (L0 & d0 & e0 & e1 & Hst & _ & Hloop & -> & -> & _).
    exists d0. replace Mesh_new with (var_refMesh L0); [exact Hloop|].
    clear -Hst. unfold startup in Hst.
    apply bind_Normal_inv in Hst as (o & ? & ? & ? & _ & Hst & _).
    apply bind_Normal_inv in Hst as (cfg & ? & ? & ? & _ & Hst & _).
    unfold load_inputs in Hst.
    apply bind_Normal_inv in Hst as ([sfm|] & ? & ? & ? & _ & Hst & _).
    2:{ apply bind_Normal_inv in Hst as (? & ? & ? & ? & _ & Hst & _). discriminate Hst. }
    do 4 apply bind_Normal_inv in Hst as (? & ? & ? & ? & _ & Hst & _).
    unfold ret in Hst. by injection Hst as <-.
Qed.

(** C7: in a run that reaches the build loop (line 194), if some observation
    of some landmark names a view that does not resolve, the build loop
    throws the resolution error of such a view and produces no reference
    cloud; nothing catches it, so the process is terminated by it.  Up to
    that point the run has only gone through the start-up and the loop: no
    remap, unwrap, subdivision, save or texture stage ran.  The disk is the
    one the start-up left, whose only change is the creation of the output
    folder: whatever way of reading files is not affected by the creation
    of a directory reads every file, the input mesh included, as before the
    run. *)
Theorem C7_unresolved_view_is_fatal argv d L :
  outcome (startup argv d) = Normal L ->
  some_view_unresolved (var_mp L) (getLandmarks (var_sfmData L)) ->
  let d1 := disk_after (startup argv d) in
  exists vid evs',
    viewIndex (var_mp L) !! vid = None /\
    outcome (build_reference_cloud L d1) = Thrown (ResolutionError vid) /\
    run argv d = (Terminate (ResolutionError vid), d1, events (startup argv d) ++ evs') /\
    Forall (fun ev => phase ev = PhStartup \/ phase ev = PhBuild) (run argv d).2 /\
    create_directory (outputFolder (var_opts L)) d = (Ok tt, d1) /\
    forall (Content : Type) (read : Disk -> string -> Content),
      (forall p d0 f, read (create_directory p d0).2 f = read d0 f) ->
      read (run argv d).1.2 (inputMeshFilepath (var_opts L))
      = read d (inputMeshFilepath (var_opts L)).
Proof.
  intros Ho (lp & vid0 & Hlp & Hvid & Hno).
  destruct (startup argv d) as [o d1 evs] eqn:Hs. simpl in Ho. subst o. cbn [disk_after events].
  destruct (landmark_loop_cases (var_mp L) (getLandmarks (var_sfmData L)) (var_refMesh L) d1)
    as [(vis & evs' & HF & _)|(lp' & vid & evs' & _ & _ & Hnone & Hrun & Hev)].
  { exfalso. apply list_elem_of_lookup in Hlp as (i & Hi).
    destruct (Forall2_lookup_l _ _ _ _ _ HF Hi) as (v & _ & Hv).
    apply Forall2_resolves_all in Hv. rewrite Forall_forall in Hv.
    apply list_elem_of_fmap in Hvid as (ob & -> & Hob).
    destruct (Hv ob Hob) as [j Hj]. congruence. }
  assert (Hb : build_reference_cloud L d1 = mkRun (Thrown (ResolutionError vid)) d1 evs').
  { unfold build_reference_cloud. by erewrite bind_Thrown by exact Hrun. }
  assert (Hm : main argv d = mkRun (Thrown (ResolutionError vid)) d1 (evs ++ evs')).
  { rewrite main_startup_pipeline. erewrite bind_Normal by exact Hs.
    unfold pipeline. erewrite bind_Thrown by exact Hb. done. }
  destruct (startup_Normal_inv _ _ _ _ _ Hs) as (vm & m0 & _ & _ & _ & _ & _ & _ & _ & _ & Hcd & _).
  exists vid, evs'. split; [done|]. split; [by rewrite Hb|].
  split; [unfold run; by rewrite Hm|]. split.
  - unfold run. rewrite Hm. cbn [snd events]. apply Forall_app. split.
    + pose proof (startup_phase argv d) as P0. rewrite Hs in P0.
      eapply Forall_impl; [exact P0|]. by left.
    + eapply Forall_impl; [exact Hev|]. by right.
  - split; [done|]. intros Content read Hread. unfold run. rewrite Hm. simpl.
    specialize (Hread (outputFolder (var_opts L)) d). rewrite Hcd in Hread. apply Hread.
Qed.

(** Line 127: when the command line parses and either no argument was given
    ([argc == 1]) or the variables map counts a [help] option, the run
    prints the options description and returns EXIT_SUCCESS; [po::notify],
    which checks the required options, is not called, no stage runs and the
    disk is untouched. *)
Lemma early_return_of_line_127 argv d vm :
  parse_command_line argv = Ok vm ->
  vm_count vm "help"%string <> 0%nat \/ length argv = 1%nat ->
  run argv d = (Exit EXIT_SUCCESS, d, [call_parse_command_line argv; Cout_allParams]).
Proof.
  intros Hp Hh.
  assert (Hh' : help_or_no_arguments vm argv = true).
  { unfold help_or_no_arguments. apply orb_true_iff. destruct Hh as [Hh|Hh].
    - left. apply negb_true_iff. by apply Nat.eqb_neq.
    - right. rewrite Hh. done. }
  assert (E : parse_options argv d =
              mkRun (Returned EXIT_SUCCESS) d [call_parse_command_line argv; Cout_allParams]).
  { rewrite parse_options_run, Hp, Hh'. done. }
  unfold run. rewrite main_startup_pipeline. unfold startup.
  erewrite bind_Returned; [done|]. by erewrite bind_Returned by exact E.
Qed.


(** C10: the budget handed to the subdivider is
    [static_cast<int>(pts.size() * 100)].  It is at all times a signed 32-bit
    value congruent to 100 times the vertex count modulo 2^32; it equals 100
    times the vertex count exactly when the vertex count is at most 21474836
    (the product fits in a signed 32-bit int); one vertex more and the
    budget is negative. *)
Theorem C10_max_points_budget_narrowing :
  (forall L d lengthThr maxPts,
     call_subdivide lengthThr maxPts ∈ events (subdivide_branch L d) ->
     maxPts = subdivideMaxPtsThr (length (pts (mesh (var_mesh L))))) /\
  (forall n, subdivideMaxPtsThr n = static_cast_int ((Z.of_nat n * 100) mod 2 ^ 64) /\
             - 2 ^ 31 <= subdivideMaxPtsThr n < 2 ^ 31 /\
             subdivideMaxPtsThr n mod 2 ^ 32 = (100 * Z.of_nat n) mod 2 ^ 32) /\
  (forall n, subdivideMaxPtsThr n = 100 * Z.of_nat n <-> Z.of_nat n <= 21474836) /\
  subdivideMaxPtsThr (Z.to_nat 21474837) = -2147483596.
Proof.
  split; [|split; [|split]].
  - intros L d lengthThr maxPts Hin. by apply subdivide_call_in_branch in Hin as [_ ->].
  - intros n. split; [done|]. split; [apply static_cast_int_range|].
    unfold subdivideMaxPtsThr, size_t_mul, static_cast_int.
    assert (E : ((Z.of_nat n * 100) mod 2 ^ 64) mod 2 ^ 32 = (100 * Z.of_nat n) mod 2 ^ 32).
    { rewrite (Z.mul_comm 100). apply Z.mod_mod_divide. by exists (2 ^ 32). }
    rewrite E.
    destruct (Z.ltb_spec ((100 * Z.of_nat n) mod 2 ^ 32) (2 ^ 31)).
    + by rewrite Z.mod_mod by lia.
    + rewrite <- (Z.mod_add _ 1 (2 ^ 32)) by lia.
      replace ((100 * Z.of_nat n) mod 2 ^ 32 - 2 ^ 32 + 1 * 2 ^ 32)
        with ((100 * Z.of_nat n) mod 2 ^ 32) by lia.
      by rewrite Z.mod_mod by lia.
  - apply subdivideMaxPtsThr_exact_iff.
  - unfold subdivideMaxPtsThr. rewrite Z2Nat.id by lia. reflexivity.
Qed.

(** A run that does not reach line 210 asks nothing about UVs and enters
    neither branch. *)
Lemma no_branch_before_decision argv d :
  (forall L, outcome (before_branch argv d) <> Normal L) ->
  let trace := events (main argv d) in
  count_events is_hasUVs trace = 0%nat /\
  count_events in_unwrap_branch trace = 0%nat /\
  count_events in_subdivide_branch trace = 0%nat.
Proof.
  intros Hno trace. subst trace.
  pose proof (before_branch_phase argv d) as Hevs.
  unfold main. rewrite events_bind.
  destruct (outcome (before_branch argv d)) as [L|c|e]; [by destruct (Hno L)| |];
    rewrite app_nil_r; repeat split; by count_zero Hevs.
Qed.

End Claims.

(** ** The contract of the visibility remapper *)

Section Remapper.
Context {SC : Scalars} {G : Geometry}.

Lemma pull_length refMesh target :
  length (VisibilityRemapper.pull refMesh target) = length (pts target).
Proof. unfold VisibilityRemapper.pull. apply length_map. Qed.

Lemma push_point_length target acc rp :
  length (VisibilityRemapper.push_point target acc rp) = length acc.
Proof.
  unfold VisibilityRemapper.push_point.
  destruct (VisibilityRemapper.argmin _ _) as [[k c]|]; [|done].
  destruct (VisibilityRemapper.located_tris target !! k) as [[t abc]|]; [|done].
  by rewrite !length_alter.
Qed.

Lemma push_fold_length target rps acc :
  length (fold_left (VisibilityRemapper.push_point target) rps acc) = length acc.
Proof.
  revert acc. induction rps as [|rp rps IH]; intros acc; simpl; [done|].
  by rewrite IH, push_point_length.
Qed.

Lemma push_length refMesh target :
  length (VisibilityRemapper.push refMesh target) = length (pts target).
Proof. unfold VisibilityRemapper.push. by rewrite push_fold_length, length_replicate. Qed.

Lemma pull_push_length refMesh target :
  length (VisibilityRemapper.pull_push refMesh target) = length (pts target).
Proof.
  unfold VisibilityRemapper.pull_push.
  rewrite length_zip_with, pull_length, push_length. lia.
Qed.

Lemma remap_visibility_length method refMesh t :
  length (pointsVisibilities (mesh (VisibilityRemapper.remap method refMesh t)))
  = length (pts (mesh t)).
Proof.
  unfold VisibilityRemapper.remap. cbn [mesh pts pointsVisibilities].
  destruct (VisibilityRemapper.is_empty (pts (mesh t)) || VisibilityRemapper.is_empty (pts refMesh)).
  - apply length_replicate.
  - destruct method; [apply pull_length|apply push_length|apply pull_push_length].
Qed.

Lemma remap_keeps_vertices method refMesh t :
  pts (mesh (VisibilityRemapper.remap method refMesh t)) = pts (mesh t).
Proof. done. Qed.

Lemma remap_empty_input method refMesh t :
  pts (mesh t) = [] \/ pts refMesh = [] ->
  Forall (fun v => v = []) (pointsVisibilities (mesh (VisibilityRemapper.remap method refMesh t))).
Proof.
  unfold VisibilityRemapper.remap. cbn [mesh pts pointsVisibilities].
  intros [E|E]; rewrite E; cbn [VisibilityRemapper.is_empty orb].
  - constructor.
  - rewrite orb_true_r. by apply Forall_replicate.
Qed.

(** C4: whatever the method, the reference cloud and the target mesh, the
    remap returns (it is a total function, there is no error case) and
    leaves a mesh with the same vertices and exactly one visibility set per
    vertex; when the target mesh has no vertex or the reference cloud has no
    point, every visibility set it leaves is empty. *)
Theorem C4_remap_restores_visibility_invariant method refMesh t :
  let t' := VisibilityRemapper.remap method refMesh t in
  length (pointsVisibilities (mesh t')) = length (pts (mesh t')) /\
  pts (mesh t') = pts (mesh t) /\
  (pts (mesh t) = [] \/ pts refMesh = [] ->
   Forall (fun v => v = []) (pointsVisibilities (mesh t'))).
Proof.
  intros t'. subst t'. rewrite remap_keeps_vertices.
  split; [apply remap_visibility_length|]. split; [done|]. apply remap_empty_input.
Qed.

(** In a world whose remapper meets the contract, each of the two calls of
    [main] (lines 207 and 234) completes and leaves the mesh with one
    visibility set per vertex. *)
Lemma remap_call_restores_invariant {W : World} L d :
  (forall method refMesh t,
     remapVisibilities method refMesh t = Ok (VisibilityRemapper.remap method refMesh t)) ->
  exists L',
    outcome (remap L d) = Normal L' /\
    length (pointsVisibilities (mesh (var_mesh L'))) = length (pts (mesh (var_mesh L'))) /\
    pts (mesh (var_mesh L')) = pts (mesh (var_mesh L)).
Proof.
  intros Hw. unfold remap. erewrite bind_Normal by (unfold call; rewrite Hw; reflexivity).
  eexists. split; [reflexivity|]. cbn [set_mesh var_mesh].
  rewrite remap_keeps_vertices. split; [apply remap_visibility_length|done].
Qed.

End Remapper.

(** ** The start-up, case by case *)

Section StartupRun.
Context {SC : Scalars} {W : World}.

Lemma disk_after_bind {A B} (m : M A) (k : A -> M B) d :
  disk_after (bind m k d) =
  match outcome (m d) with
  | Normal a => disk_after (k a (disk_after (m d)))
  | _ => disk_after (m d)
  end.
Proof.
  unfold bind. destruct (m d) as [[a|c|e] d1 e1]; simpl; [|done|done]. by destruct (k a d1).
Qed.

(** Lines 148-160, case by case: the conversions are made in the order of
    the source and the first that throws ends the block. *)
Lemma configure_run o d :
  configure o d =
  match EVisibilityRemappingMethod_stringToEnum (opt_visibilityRemappingMethod o) with
  | Throw e => mkRun (Thrown e) d [Cout_parameters; SetLogLevel (verboseLevel o)]
  | Ok vrm =>
      match EImageColorSpace_stringToEnum (processColorspaceName o) with
      | Throw e => mkRun (Thrown e) d [Cout_parameters; SetLogLevel (verboseLevel o)]
      | Ok pc =>
          match EImageFileType_stringToEnum (outTextureFileTypeName o) with
          | Throw e => mkRun (Thrown e) d [Cout_parameters; SetLogLevel (verboseLevel o)]
          | Ok ft =>
              mkRun (Normal (assign_texParams (opt_texParams o) vrm pc
                               (if opt_correctEV o then APPLY_CORRECTION else NO_CORRECTION),
                             ft))
                    d [Cout_parameters; SetLogLevel (verboseLevel o)]
          end
      end
  end.
Proof.
  unfold configure, bind, emit, eval, ret.
  destruct (EVisibilityRemappingMethod_stringToEnum _); [|done].
  destruct (EImageColorSpace_stringToEnum _); [|done].
  by destruct (EImageFileType_stringToEnum _).
Qed.

(** Lines 162-192, case by case. *)
Lemma load_inputs_run o tp ft d :
  load_inputs o tp ft d =
  match sfmDataIO_Load (sfmDataFilename o) d with
  | Throw e => mkRun (Thrown e) d [call_Load (sfmDataFilename o)]
  | Ok None =>
      mkRun (Returned EXIT_FAILURE) d
        [call_Load (sfmDataFilename o); LogError (CannotReadSfMData (sfmDataFilename o))]
  | Ok (Some sfmData) =>
      match MultiViewParams_ctor sfmData (imagesFolder o) d with
      | Throw e => mkRun (Thrown e) d (take 2 (load_events o))
      | Ok mp =>
          match clear (Texturing_new tp) with
          | Throw e => mkRun (Thrown e) d (take 3 (load_events o))
          | Ok m0 =>
              match loadFromOBJ (inputMeshFilepath o) (flipNormals o) d m0 with
              | Throw e => mkRun (Thrown e) d (load_events o)
              | Ok m =>
                  match create_directory (outputFolder o) d with
                  | (Throw e, d1) =>
                      mkRun (Thrown e) d1
                        (load_events o ++ [call_create_directory (outputFolder o)])
                  | (Ok _, d1) =>
                      mkRun (Normal {| var_opts := o; var_texParams := tp;
                                       var_outputTextureFileType := ft;
                                       var_sfmData := sfmData; var_mp := mp;
                                       var_mesh := m; var_refMesh := Mesh_new |})
                            d1 (load_events o ++ [call_create_directory (outputFolder o)])
                  end
              end
          end
      end
  end.
Proof.
  unfold load_inputs, bind, call_read, call_write, call, emit, ret, return_, load_events.
  destruct (sfmDataIO_Load _ _) as [[sfm|]|e]; [|done|done].
  destruct (MultiViewParams_ctor _ _ _) as [mp|e]; [|done].
  destruct (clear _) as [m0|e]; [|done].
  destruct (loadFromOBJ _ _ _ _) as [m|e]; [|done].
  by destruct (create_directory _ _) as [[[]|e] d1].
Qed.

(** Lines 41-192, case by case. *)
Lemma startup_run argv d :
  startup argv d =
  match parse_command_line argv with
  | Throw e => after_catch e d [call_parse_command_line argv]
  | Ok vm =>
      if help_or_no_arguments vm argv
      then mkRun (Returned EXIT_SUCCESS) d [call_parse_command_line argv; Cout_allParams]
      else match notify vm with
           | Throw e => after_catch e d [call_parse_command_line argv; call_notify]
           | Ok o =>
               match configure o d with
               | mkRun (Normal cfg) _ _ =>
                   match load_inputs o cfg.1 cfg.2 d with
                   | mkRun c d1 evs => mkRun c d1 (configured_events argv o ++ evs)
                   end
               | mkRun (Returned c) _ _ => mkRun (Returned c) d (configured_events argv o)
               | mkRun (Thrown e) _ _ => mkRun (Thrown e) d (configured_events argv o)
               end
           end
  end.
Proof.
  unfold startup. unfold bind at 1. rewrite parse_options_run.
  destruct (parse_command_line argv) as [vm|e]; [|by destruct e].
  destruct (help_or_no_arguments vm argv); [done|].
  destruct (notify vm) as [o|e]; [|by destruct e].
  unfold bind. rewrite configure_run. unfold configured_events.
  destruct (EVisibilityRemappingMethod_stringToEnum _); [|done].
  destruct (EImageColorSpace_stringToEnum _); [|done].
  destruct (EImageFileType_stringToEnum _); [|done].
  by destruct (load_inputs _ _ _ _).
Qed.

End StartupRun.

(** ** Failures of the start-up *)

Section StartupFailures.
Context {SC : Scalars} {W : World}.

(** When the start-up does not complete normally, [main] ends as the
    start-up does. *)
Lemma main_stops_with_startup argv d :
  (forall L, outcome (startup argv d) <> Normal L) ->
  run argv d =
  (match outcome (startup argv d) with
   | Normal _ => Exit EXIT_SUCCESS
   | Returned c => Exit c
   | Thrown e => Terminate e
   end, disk_after (startup argv d), events (startup argv d)).
Proof.
  intros Hno. unfold run. rewrite main_startup_pipeline. unfold bind.
  destruct (startup argv d) as [[L|c|e] d1 evs]; [by destruct (Hno L)|done|done].
Qed.

Lemma startup_accepted argv o d :
  options_accepted argv o ->
  startup argv d =
  match configure o d with
  | mkRun (Normal cfg) _ _ =>
      match load_inputs o cfg.1 cfg.2 d with
      | mkRun c d1 evs => mkRun c d1 (configured_events argv o ++ evs)
      end
  | mkRun (Returned c) _ _ => mkRun (Returned c) d (configured_events argv o)
  | mkRun (Thrown e) _ _ => mkRun (Thrown e) d (configured_events argv o)
  end.
Proof. intros (vm & Hp & Hh & Hn). by rewrite startup_run, Hp, Hh, Hn. Qed.

(** X1: a program_options error thrown by the parser or by [po::notify] is
    caught: the run prints the error and the usage after the calls made so
    far, returns EXIT_FAILURE, calls nothing else and leaves the disk as it
    was. *)
Theorem X1_program_options_error_is_reported argv d e evs :
  thrown_in_try argv e evs -> is_po_error e = true ->
  run argv d = (Exit EXIT_FAILURE, d, evs ++ [Cerr_error (po_what e); Cout_usage]).
Proof.
  intros Ht He.
  assert (Hs : startup argv d
               = mkRun (Returned EXIT_FAILURE) d (evs ++ [Cerr_error (po_what e); Cout_usage])).
  { rewrite startup_run. destruct Ht as [[Hp ->]|(vm & Hp & Hh & Hn & ->)].
    - rewrite Hp. by destruct e.
    - rewrite Hp, Hh, Hn. by destruct e. }
  rewrite main_stops_with_startup; rewrite Hs; done.
Qed.

(** X2: any other exception thrown by the parser or by [po::notify] is not
    caught by the two [catch] clauses: it leaves [main], nothing is printed
    and the disk is as it was. *)
Theorem X2_other_exception_leaves_the_try_block argv d e evs :
  thrown_in_try argv e evs -> is_po_error e = false ->
  run argv d = (Terminate e, d, evs).
Proof.
  intros Ht He.
  assert (Hs : startup argv d = mkRun (Thrown e) d evs).
  { rewrite startup_run. destruct Ht as [[Hp ->]|(vm & Hp & Hh & Hn & ->)].
    - rewrite Hp. by destruct e.
    - rewrite Hp, Hh, Hn. by destruct e. }
  rewrite main_stops_with_startup; rewrite Hs; done.
Qed.

Lemma configure_failure o d e :
  conversion_failure o = Some e ->
  configure o d = mkRun (Thrown e) d [Cout_parameters; SetLogLevel (verboseLevel o)].
Proof.
  unfold conversion_failure. rewrite configure_run.
  destruct (EVisibilityRemappingMethod_stringToEnum _); [|by intros [= ->]].
  destruct (EImageColorSpace_stringToEnum _); [|by intros [= ->]].
  destruct (EImageFileType_stringToEnum _); [done|by intros [= ->]].
Qed.

Lemma configure_success o d :
  conversion_failure o = None ->
  exists cfg, configure o d = mkRun (Normal cfg) d [Cout_parameters; SetLogLevel (verboseLevel o)].
Proof.
  unfold conversion_failure. rewrite configure_run.
  destruct (EVisibilityRemappingMethod_stringToEnum _); [|done].
  destruct (EImageColorSpace_stringToEnum _); [|done].
  destruct (EImageFileType_stringToEnum _); [|done]. by eexists.
Qed.

(** X3: the names of the remapping method, the colour space and the texture
    file type are converted after the options are printed and before any
    file is read (lines 154-157).  If a conversion throws, the exception of
    the first one that does leaves [main]: no file has been read, no
    directory created, and the run does not end with exit code 1. *)
Theorem X3_bad_enum_name_ends_the_run_before_any_load argv d o e :
  options_accepted argv o -> conversion_failure o = Some e ->
  run argv d = (Terminate e, d, configured_events argv o).
Proof.
  intros Ha Hc.
  assert (Hs : startup argv d = mkRun (Thrown e) d (configured_events argv o)).
  { by rewrite (startup_accepted _ _ _ Ha), (configure_failure _ _ _ Hc). }
  rewrite main_stops_with_startup; rewrite Hs; done.
Qed.

(** X4: when [sfmDataIO::Load] returns false the run logs the error and
    returns EXIT_FAILURE at once: the mesh is not loaded, the output folder
    is not created and the disk is as it was. *)
Theorem X4_unreadable_scene_stops_before_the_mesh argv d o :
  options_accepted argv o -> conversion_failure o = None ->
  sfmDataIO_Load (sfmDataFilename o) d = Ok None ->
  run argv d =
  (Exit EXIT_FAILURE, d,
   configured_events argv o ++
   [call_Load (sfmDataFilename o); LogError (CannotReadSfMData (sfmDataFilename o))]).
Proof.
  intros Ha Hc Hl.
  destruct (configure_success o d Hc) as (cfg & Hcfg).
  assert (Hs : startup argv d =
    mkRun (Returned EXIT_FAILURE) d
      (configured_events argv o ++
       [call_Load (sfmDataFilename o); LogError (CannotReadSfMData (sfmDataFilename o))])).
  { by rewrite (startup_accepted _ _ _ Ha), Hcfg, load_inputs_run, Hl. }
  rewrite main_stops_with_startup; rewrite Hs; done.
Qed.

End StartupFailures.

(** ** What the start-up hands to the pipeline *)

Section StartupResults.
Context {SC : Scalars} {W : World}.

Ltac not_in H :=
  cbn in H; repeat (apply elem_of_cons in H as [H|H]; [discriminate H|]);
  by apply elem_of_nil in H.

Lemma pipeline_phase L :
  emits_only (fun ev => phase ev <> PhStartup) (pipeline L).
Proof.
  unfold pipeline. apply emits_only_bind.
  { intros d. eapply Forall_impl; [apply build_reference_cloud_phase|]. by intros ev ->. }
  intros L1. apply emits_only_bind.
  { intros d. eapply Forall_impl; [apply remap_phase|]. by intros ev ->. }
  intros L2. apply emits_only_bind.
  { intros d. eapply Forall_impl; [apply generate_uvs_or_subdivide_phase|].
    intros ev [->|[->|[->| ->]]]; done. }
  intros L3 d. eapply Forall_impl; [apply save_and_texture_phase|]. by intros ev ->.
Qed.

Lemma startup_event_of_main argv d ev :
  phase ev = PhStartup -> ev ∈ events (main argv d) -> ev ∈ events (startup argv d).
Proof.
  intros Hph. rewrite main_startup_pipeline, events_bind. intros Hin.
  apply elem_of_app in Hin as [Hin|Hin]; [done|].
  destruct (outcome (startup argv d)) as [L|c|e]; [|by apply elem_of_nil in Hin..].
  pose proof (pipeline_phase L (disk_after (startup argv d))) as Hp.
  rewrite Forall_forall in Hp. by destruct (Hp ev Hin).
Qed.

(** X5: the output folder is created only after the options have been
    accepted and converted and the scene, the multi-view parameters and the
    mesh have all been loaded; the folder is the one of the [--output]
    option.  A run in which one of these fails creates no folder. *)
Theorem X5_output_folder_created_after_the_loads argv d p :
  call_create_directory p ∈ events (main argv d) ->
  exists o cfg sfm mp m0 m,
    options_accepted argv o /\
    outcome (configure o d) = Normal cfg /\
    sfmDataIO_Load (sfmDataFilename o) d = Ok (Some sfm) /\
    MultiViewParams_ctor sfm (imagesFolder o) d = Ok mp /\
    clear (Texturing_new cfg.1) = Ok m0 /\
    loadFromOBJ (inputMeshFilepath o) (flipNormals o) d m0 = Ok m /\
    p = outputFolder o.
Proof.
  intros Hin. apply startup_event_of_main in Hin; [|done].
  rewrite startup_run in Hin.
  destruct (parse_command_line argv) as [vm|e] eqn:Hp; [|destruct e; not_in Hin].
  destruct (help_or_no_arguments vm argv) eqn:Hh; [not_in Hin|].
  destruct (notify vm) as [o|e] eqn:Hn; [|destruct e; not_in Hin].
  destruct (configure o d) as [[cfg|c|e] dc ec] eqn:Hc; [|not_in Hin..].
  rewrite load_inputs_run in Hin.
  destruct (sfmDataIO_Load _ _) as [[sfm|]|e] eqn:Hl; [|not_in Hin..].
  destruct (MultiViewParams_ctor _ _ _) as [mp|e] eqn:Hm; [|not_in Hin].
  destruct (clear _) as [m0|e] eqn:H0; [|not_in Hin].
  destruct (loadFromOBJ _ _ _ _) as [m|e] eqn:H1; [|not_in Hin].
  exists o, cfg, sfm, mp, m0, m.
  split; [by exists vm|]. split; [by rewrite Hc|]. repeat (split; [done|]).
  assert (Hin' : call_create_directory p ∈
                 configured_events argv o ++ load_events o
                 ++ [call_create_directory (outputFolder o)]).
  { by destruct (create_directory _ _) as [[[]|e] d1]. }
  clear Hin. cbn in Hin'.
  do 8 (apply elem_of_cons in Hin' as [Hin'|Hin']; [discriminate Hin'|]).
  apply list_elem_of_singleton in Hin'. by injection Hin'.
Qed.

(** X6: in a run that reaches line 192, the texturing parameters the mesh
    object is created with are the ones bound to the options, with three
    members replaced: the remapping method and the colour space are the
    conversions of the option strings, and [correctEV] is APPLY_CORRECTION
    exactly when the [--correctEV] flag is set.  The output file type is the
    conversion of its option string, and the mesh is the one [loadFromOBJ]
    read into the cleared object. *)
Theorem X6_texturing_parameters_forwarded argv d L :
  outcome (startup argv d) = Normal L ->
  let o := var_opts L in
  let tp := var_texParams L in
  let given := opt_texParams o in
  options_accepted argv o /\
  EVisibilityRemappingMethod_stringToEnum (opt_visibilityRemappingMethod o)
    = Ok (visibilityRemappingMethod tp) /\
  EImageColorSpace_stringToEnum (processColorspaceName o) = Ok (processColorspace tp) /\
  EImageFileType_stringToEnum (outTextureFileTypeName o) = Ok (var_outputTextureFileType L) /\
  correctEV tp = (if opt_correctEV o then APPLY_CORRECTION else NO_CORRECTION) /\
  (textureSide tp = textureSide given /\ downscale tp = downscale given /\
   useUDIM tp = useUDIM given /\ fillHoles tp = fillHoles given /\
   padding tp = padding given /\ useScore tp = useScore given /\
   multiBandDownscale tp = multiBandDownscale given /\
   multiBandNbContrib tp = multiBandNbContrib given /\
   bestScoreThreshold tp = bestScoreThreshold given /\
   angleHardThreshold tp = angleHardThreshold given /\
   forceVisibleByAllVertices tp = forceVisibleByAllVertices given) /\
  exists m0,
    clear (Texturing_new tp) = Ok m0 /\
    loadFromOBJ (inputMeshFilepath o) (flipNormals o) d m0 = Ok (var_mesh L).
Proof.
  intros Ho.
  destruct (startup argv d) as [oc d1 evs] eqn:Hs. simpl in Ho. subst oc.
  destruct (startup_Normal_inv _ _ _ _ _ Hs)
    as (vm & m0 & Hp & Hh & Hn & Hc & _ & _ & H0 & H1 & _ & _).
  cbv zeta. split; [by exists vm|].
  rewrite configure_run in Hc.
  destruct (EVisibilityRemappingMethod_stringToEnum _) as [vrm|]; [|done].
  destruct (EImageColorSpace_stringToEnum _) as [pc|]; [|done].
  destruct (EImageFileType_stringToEnum _) as [ft|]; [|done].
  simpl in Hc. injection Hc as Htp Hft. rewrite <- Htp, <- Hft. cbn.
  repeat (split; [done|]). exists m0. rewrite Htp. by split.
Qed.

End StartupResults.

(** ** The calls of the resolver in the build loop *)

Section ResolverCalls.
Context {SC : Scalars} {W : World}.

Lemma asked_views_app mp a b :
  asked_views mp (a ++ b) =
  asked_views mp a ++ match first_unresolved mp a with
                      | None => asked_views mp b
                      | Some _ => []
                      end.
Proof.
  induction a as [|v a IH]; simpl; [done|].
  destruct (viewIndex mp !! v); [by rewrite IH|done].
Qed.

Lemma first_unresolved_app mp a b :
  first_unresolved mp (a ++ b) =
  match first_unresolved mp a with
  | None => first_unresolved mp b
  | Some v => Some v
  end.
Proof.
  induction a as [|v a IH]; simpl; [done|]. by destruct (viewIndex mp !! v).
Qed.

Lemma observation_loop_calls mp obs pv d :
  events (observation_loop mp obs pv d) = call_getIndexFromViewId <$> asked_views mp obs.*1 /\
  disk_after (observation_loop mp obs pv d) = d /\
  match first_unresolved mp obs.*1 with
  | Some vid => outcome (observation_loop mp obs pv d) = Thrown (ResolutionError vid)
  | None => exists idx, outcome (observation_loop mp obs pv d) = Normal (pv ++ idx)
  end.
Proof.
  revert pv. induction obs as [|ob rest IH]; intros pv.
  - simpl. repeat split. exists []. by rewrite app_nil_r.
  - cbn [observation_loop]. change ((ob :: rest).*1) with (ob.1 :: rest.*1).
    cbn [asked_views first_unresolved]. unfold getIndexFromViewId.
    destruct (viewIndex mp !! ob.1) as [i|] eqn:E.
    + erewrite bind_Normal by reflexivity. cbn [events outcome disk_after].
      destruct (IH (pv ++ [i])) as (He & Hd & Ho). rewrite He. split; [done|]. split; [done|].
      destruct (first_unresolved mp rest.*1); [done|].
      destruct Ho as (idx & Ho). exists (i :: idx). rewrite Ho. by rewrite <- app_assoc.
    + by erewrite bind_Thrown by reflexivity.
Qed.

End ResolverCalls.

Section BuildLoop.
Context {SC : Scalars} {W : World}.

(** X7: the build loop asks the resolver about the observations one by one,
    landmark after landmark and observation after observation, and stops
    right after the first view identifier that does not resolve: the calls
    it makes are exactly those, it throws the resolution error of that first
    view, and it completes when there is none.  It never touches the
    disk. *)
Theorem X7_resolver_called_in_order_until_first_failure mp
    (landmarks : list (IndexT * Landmark)) refMesh d :
  let r := landmark_loop mp landmarks refMesh d in
  events r = call_getIndexFromViewId <$> asked_views mp (observed_views landmarks) /\
  disk_after r = d /\
  match first_unresolved mp (observed_views landmarks) with
  | Some vid => outcome r = Thrown (ResolutionError vid)
  | None => exists refMesh', outcome r = Normal refMesh'
  end.
Proof.
  cbv zeta. revert refMesh. induction landmarks as [|lp rest IH]; intros refMesh.
  - simpl. repeat split. by eexists.
  - cbn [landmark_loop]. unfold observed_views. rewrite fmap_cons. cbn [concat].
    fold (observed_views rest).
    rewrite asked_views_app, first_unresolved_app.
    destruct (observation_loop_calls mp (observations lp.2) [] d) as (He & Hd & Ho).
    destruct (observation_loop mp (observations lp.2) [] d) as [o d1 e1] eqn:Hrun.
    cbn [events disk_after outcome] in He, Hd, Ho. subst d1.
    destruct (first_unresolved mp (observations lp.2).*1) as [vid|].
    + subst o. erewrite bind_Thrown by exact Hrun. cbn [events disk_after outcome].
      by rewrite He, app_nil_r.
    + destruct Ho as (idx & ->). erewrite bind_Normal by exact Hrun.
      cbn [events disk_after outcome].
      match goal with |- context [landmark_loop mp rest ?m d] =>
        destruct (IH m) as (He' & Hd' & Ho') end.
      rewrite He', He, fmap_app. done.
Qed.

Lemma resolved_NoDup mp (obs : list (IndexT * Point2d)) (idx : list Z) :
  (forall v1 v2 i, viewIndex mp !! v1 = Some i -> viewIndex mp !! v2 = Some i -> v1 = v2) ->
  Forall2 (resolves_to mp) obs idx -> NoDup obs.*1 -> NoDup idx.
Proof.
  intros Hinj. induction 1 as [|ob i obs idx Hr HF IH]; intros Hnd; [constructor|].
  rewrite fmap_cons in Hnd. apply NoDup_cons in Hnd as [Hnotin Hnd].
  apply NoDup_cons. split; [|by apply IH].
  intros Hin. apply Hnotin.
  apply list_elem_of_lookup in Hin as (k & Hk).
  destruct (Forall2_lookup_r _ _ _ _ _ HF Hk) as (ob' & Hob' & Hr').
  rewrite (Hinj ob.1 ob'.1 i Hr Hr').
  apply list_elem_of_fmap. exists ob'. split; [done|]. by eapply list_elem_of_lookup_2.
Qed.

(** X8: when no landmark has two observations of the same view (the
    observations are a map keyed by view identifier) and the resolver gives
    different views different indices, no visibility set of the reference
    cloud the loop builds holds a view index twice. *)
Theorem X8_visibility_sets_have_no_duplicates mp
    (landmarks : list (IndexT * Landmark)) d refMesh :
  outcome (landmark_loop mp landmarks Mesh_new d) = Normal refMesh ->
  Forall (fun lp => NoDup (observations lp.2).*1) landmarks ->
  (forall v1 v2 i, viewIndex mp !! v1 = Some i -> viewIndex mp !! v2 = Some i -> v1 = v2) ->
  Forall (fun v => NoDup v) (pointsVisibilities refMesh).
Proof.
  intros Ho Hnd Hinj.
  destruct (landmark_loop_cases mp landmarks Mesh_new d)
    as [(vis & evs & HF & Hrun & _)|(lp & vid & evs & _ & _ & _ & Hrun & _)];
    rewrite Hrun in Ho; [|done].
  injection Ho as <-. cbn [pointsVisibilities Mesh_new app].
  clear Hrun. induction HF as [|lp v lms vis Hv HF IH]; [constructor|].
  apply Forall_cons in Hnd as [Hnd1 Hnd]. constructor; [|by apply IH].
  by eapply resolved_NoDup.
Qed.

(** X9: from 21474837 to 42949672 vertices the maximum-points budget of
    line 225 is 100 times the vertex count minus 2^32, a negative number. *)
Theorem X9_budget_negative_range n :
  21474837 <= Z.of_nat n <= 42949672 ->
  subdivideMaxPtsThr n = 100 * Z.of_nat n - 2 ^ 32 /\ subdivideMaxPtsThr n < 0.
Proof.
  intros H. unfold subdivideMaxPtsThr, size_t_mul, static_cast_int.
  rewrite (Z.mod_small (Z.of_nat n * 100) (2 ^ 64)) by lia.
  rewrite (Z.mod_small (Z.of_nat n * 100) (2 ^ 32)) by lia.
  destruct (Z.ltb_spec (Z.of_nat n * 100) (2 ^ 31)); lia.
Qed.

End BuildLoop.

(** ** The pipeline after the start-up, case by case *)

Section PipelineRun.
Context {SC : Scalars} {W : World}.

Lemma remap_run L d :
  remap L d =
  let ev := call_remapVisibilities (visibilityRemappingMethod (var_texParams L))
              (var_refMesh L) in
  match remapVisibilities (visibilityRemappingMethod (var_texParams L)) (var_refMesh L)
          (var_mesh L) with
  | Ok m => mkRun (Normal (set_mesh L m)) d [ev]
  | Throw e => mkRun (Thrown e) d [ev]
  end.
Proof. unfold remap, bind, call, ret. by destruct (remapVisibilities _ _ _). Qed.

Lemma unwrap_branch_run L d :
  unwrap_branch L d =
  let start := LogInfo (StartUnwrapping (unwrapMethod (var_opts L))) in
  match EUnwrapMethod_stringToEnum (unwrapMethod (var_opts L)) with
  | Throw e => mkRun (Thrown e) d [start]
  | Ok method =>
      match unwrap (var_mp L) method (var_mesh L) with
      | Throw e => mkRun (Thrown e) d [start; call_unwrap method]
      | Ok m =>
          mkRun (Normal (set_mesh L m)) d [start; call_unwrap method; LogInfo UnwrappingDone]
      end
  end.
Proof.
  unfold unwrap_branch, bind, emit, eval, call, ret.
  destruct (EUnwrapMethod_stringToEnum _) as [method|e]; [|done].
  by destruct (unwrap _ _ _).
Qed.

Lemma save_and_texture_run L d :
  save_and_texture L d =
  let out := outputFolder (var_opts L) in
  let ft := var_outputTextureFileType L in
  match saveAsOBJ out "texturedMesh"%string ft (var_mesh L) d with
  | (Throw e, d2) => mkRun (Thrown e) d2 [call_saveAsOBJ out "texturedMesh"%string ft]
  | (Ok _, d2) =>
      match generateTextures (var_mp L) out ft (var_mesh L) d2 with
      | (Throw e, d3) => mkRun (Thrown e) d3 (finish_events L)
      | (Ok _, d3) => mkRun (Returned EXIT_SUCCESS) d3 (finish_events L ++ [LogInfo TaskDone])
      end
  end.
Proof.
  unfold save_and_texture, bind, emit, call_write, return_, finish_events. cbv zeta.
  destruct (saveAsOBJ _ _ _ _ _) as [[[]|e] d2]; [|done].
  by destruct (generateTextures _ _ _ _ _) as [[m|e] d3].
Qed.

Lemma build_reference_cloud_disk L d : disk_after (build_reference_cloud L d) = d.
Proof.
  unfold build_reference_cloud. rewrite disk_after_bind.
  destruct (landmark_loop_cases (var_mp L) (getLandmarks (var_sfmData L)) (var_refMesh L) d)
    as [(vis & evs & _ & -> & _)|(lp & vid & evs & _ & _ & _ & -> & _)]; done.
Qed.

Lemma remap_disk L d : disk_after (remap L d) = d.
Proof. rewrite remap_run. cbv zeta. by destruct (remapVisibilities _ _ _). Qed.

Lemma subdivide_branch_disk L d : disk_after (subdivide_branch L d) = d.
Proof.
  rewrite subdivide_branch_run. cbv zeta.
  destruct (subdivider_result L) as [me|e]; [|done].
  destruct (atlases_result L me) as [m|e]; [|done]. apply remap_disk.
Qed.

Lemma generate_uvs_or_subdivide_disk L d : disk_after (generate_uvs_or_subdivide L d) = d.
Proof.
  unfold generate_uvs_or_subdivide. rewrite disk_after_bind. cbn [emit outcome disk_after].
  destruct (negb _).
  - rewrite unwrap_branch_run. cbv zeta.
    destruct (EUnwrapMethod_stringToEnum _) as [method|e]; [|done].
    by destruct (unwrap _ _ _).
  - apply subdivide_branch_disk.
Qed.

(** Between the start-up and the export nothing is written. *)
Lemma before_branch_disk argv d :
  disk_after (before_branch argv d) = disk_after (startup argv d).
Proof.
  unfold before_branch. rewrite disk_after_bind.
  destruct (outcome (startup argv d)) as [L|c|e]; [|done|done].
  rewrite disk_after_bind, build_reference_cloud_disk.
  destruct (outcome (build_reference_cloud _ _)); [|done|done]. apply remap_disk.
Qed.

Lemma before_finish_disk argv d :
  disk_after (before_finish argv d) = disk_after (startup argv d).
Proof.
  unfold before_finish. rewrite disk_after_bind, before_branch_disk.
  destruct (outcome (before_branch argv d)); [|done|done].
  apply generate_uvs_or_subdivide_disk.
Qed.

Lemma main_before_finish argv d :
  main argv d = bind (before_finish argv) save_and_texture d.
Proof. unfold main, before_finish. by rewrite bind_assoc. Qed.

Lemma before_finish_from_branch argv d L :
  outcome (before_branch argv d) = Normal L ->
  before_finish argv d =
  match (if negb (hasUVs (var_mesh L)) then unwrap_branch L else subdivide_branch L)
          (disk_after (before_branch argv d)) with
  | mkRun o d2 e2 => mkRun o d2 (events (before_branch argv d) ++ call_hasUVs :: e2)
  end.
Proof.
  intros Ho. unfold before_finish, bind at 1.
  destruct (before_branch argv d) as [o d1 evs]. simpl in Ho. subst o.
  unfold generate_uvs_or_subdivide, bind, emit. cbn [events disk_after].
  by destruct ((if negb (hasUVs (var_mesh L)) then unwrap_branch L else subdivide_branch L) d1).
Qed.

(** A run in which the branch of line 210 does not complete ends as the
    branch does. *)
Lemma main_stops_with_branch argv d e :
  outcome (before_finish argv d) = Thrown e ->
  run argv d = (Terminate e, disk_after (before_finish argv d), events (before_finish argv d)).
Proof.
  intros Ho. unfold run. rewrite main_before_finish. unfold bind.
  destruct (before_finish argv d) as [o d1 evs]. simpl in Ho. by subst o.
Qed.

(** X13: the mesh is exported before the textures are generated, both from
    the mesh the branch of line 210 left and under the output folder.
    [saveAsOBJ] works on the disk the start-up left (nothing is written in
    between) and [generateTextures] on the disk [saveAsOBJ] left.  If
    [saveAsOBJ] throws, [generateTextures] is not called and the process is
    terminated with the disk as [saveAsOBJ] left it; if [generateTextures]
    throws, the process is terminated with the disk as [generateTextures]
    left it; if both return, the run logs its last line and returns
    EXIT_SUCCESS, again with the disk as [generateTextures] left it. *)
Theorem X13_export_then_textures_in_order argv d L :
  outcome (before_finish argv d) = Normal L ->
  let d1 := disk_after (startup argv d) in
  let evs := events (before_finish argv d) in
  let out := outputFolder (var_opts L) in
  let ft := var_outputTextureFileType L in
  match saveAsOBJ out "texturedMesh"%string ft (var_mesh L) d1 with
  | (Throw e, d2) =>
      run argv d = (Terminate e, d2, evs ++ [call_saveAsOBJ out "texturedMesh"%string ft])
  | (Ok _, d2) =>
      match generateTextures (var_mp L) out ft (var_mesh L) d2 with
      | (Throw e, d3) => run argv d = (Terminate e, d3, evs ++ finish_events L)
      | (Ok _, d3) =>
          run argv d = (Exit EXIT_SUCCESS, d3, evs ++ finish_events L ++ [LogInfo TaskDone])
      end
  end.
Proof.
  intros Ho. cbv zeta. rewrite <- before_finish_disk.
  unfold run. rewrite main_before_finish. unfold bind.
  destruct (before_finish argv d) as [o d1 evs]. simpl in Ho. subst o.
  cbn [disk_after events]. rewrite save_and_texture_run. cbv zeta.
  destruct (saveAsOBJ _ _ _ _ _) as [[[]|e] d2]; [|done].
  by destruct (generateTextures _ _ _ _ _) as [[m|e] d3].
Qed.

(** X14: when the mesh has no UVs, the name of the unwrap method is
    converted only now (line 213), after everything has been loaded and the
    first remap has run.  If the conversion or [unwrap] throws, the process
    is terminated with only the output folder created; otherwise the mesh
    that is exported is the one [unwrap] returned for the mesh of the first
    remap, and there is no second remap. *)
Theorem X14_unwrap_branch_data_flow argv d L :
  outcome (before_branch argv d) = Normal L ->
  hasUVs (var_mesh L) = false ->
  let d1 := disk_after (startup argv d) in
  let evs := events (before_branch argv d) in
  let start := LogInfo (StartUnwrapping (unwrapMethod (var_opts L))) in
  match EUnwrapMethod_stringToEnum (unwrapMethod (var_opts L)) with
  | Throw e => run argv d = (Terminate e, d1, evs ++ [call_hasUVs; start])
  | Ok method =>
      match unwrap (var_mp L) method (var_mesh L) with
      | Throw e => run argv d = (Terminate e, d1, evs ++ [call_hasUVs; start; call_unwrap method])
      | Ok m =>
          outcome (before_finish argv d) = Normal (set_mesh L m) /\
          events (before_finish argv d) =
            evs ++ [call_hasUVs; start; call_unwrap method; LogInfo UnwrappingDone]
      end
  end.
Proof.
  intros Ho Huv. cbv zeta. rewrite <- before_branch_disk.
  pose proof (before_finish_from_branch argv d L Ho) as Hbf.
  rewrite Huv in Hbf. cbn [negb] in Hbf. rewrite unwrap_branch_run in Hbf. cbv zeta in Hbf.
  destruct (EUnwrapMethod_stringToEnum _) as [method|e].
  - destruct (unwrap _ _ _) as [m|e].
    + by rewrite Hbf.
    + rewrite (main_stops_with_branch argv d e); by rewrite Hbf.
  - rewrite (main_stops_with_branch argv d e); by rewrite Hbf.
Qed.

(** X15: when the mesh has UVs, the subdivider works on the geometry the
    first remap left, [updateAtlases] on the mesh with the subdivided
    geometry, and the second remap on what [updateAtlases] returned, with
    the method and the reference cloud of the first; the mesh that is
    exported is the one the second remap returned.  If one of the three
    throws, the process is terminated with only the output folder
    created. *)
Theorem X15_subdivision_branch_data_flow argv d L :
  outcome (before_branch argv d) = Normal L ->
  hasUVs (var_mesh L) = true ->
  let d1 := disk_after (startup argv d) in
  match subdivider_result L with
  | Throw e => (run argv d).1 = (Terminate e, d1)
  | Ok me =>
      match atlases_result L me with
      | Throw e => (run argv d).1 = (Terminate e, d1)
      | Ok m =>
          match remapVisibilities (visibilityRemappingMethod (var_texParams L))
                  (var_refMesh L) m with
          | Throw e => (run argv d).1 = (Terminate e, d1)
          | Ok m' => outcome (before_finish argv d) = Normal (set_mesh L m')
          end
      end
  end.
Proof.
  intros Ho Huv. cbv zeta. rewrite <- before_branch_disk.
  pose proof (before_finish_from_branch argv d L Ho) as Hbf.
  rewrite Huv in Hbf. cbn [negb] in Hbf. rewrite subdivide_branch_run in Hbf. cbv zeta in Hbf.
  destruct (subdivider_result L) as [me|e].
  2:{ rewrite (main_stops_with_branch argv d e); by rewrite Hbf. }
  destruct (atlases_result L me) as [m|e].
  2:{ rewrite (main_stops_with_branch argv d e); by rewrite Hbf. }
  rewrite remap_run in Hbf. cbv zeta in Hbf. cbn [set_mesh var_texParams var_refMesh var_mesh] in Hbf.
  destruct (remapVisibilities _ _ m) as [m'|e].
  - by rewrite Hbf.
  - rewrite (main_stops_with_branch argv d e); by rewrite Hbf.
Qed.

(** *** The shape of every trace *)

Lemma before_branch_shape argv d :
  exists s b r,
    events (before_branch argv d) = s ++ b ++ r /\
    Forall (fun ev => phase ev = PhStartup) s /\
    Forall (fun ev => phase ev = PhBuild) b /\
    ((r = [] /\ forall L, outcome (before_branch argv d) <> Normal L) \/
     (exists method refMesh,
        r = [call_remapVisibilities method refMesh] /\
        forall L, outcome (before_branch argv d) = Normal L ->
                  visibilityRemappingMethod (var_texParams L) = method /\
                  var_refMesh L = refMesh)).
Proof.
  unfold before_branch. rewrite events_bind, outcome_bind.
  pose proof (startup_phase argv d) as P0.
  destruct (outcome (startup argv d)) as [L0|c|e].
  2,3: exists (events (startup argv d)), [], []; rewrite !app_nil_r;
       repeat split; [done|constructor|by left].
  rewrite events_bind, outcome_bind.
  pose proof (build_reference_cloud_phase L0 (disk_after (startup argv d))) as P1.
  destruct (build_reference_cloud L0 (disk_after (startup argv d))) as [[L1|c|e] d1 e1].
  2,3: exists (events (startup argv d)), e1, []; cbn [events outcome] in *;
       rewrite !app_nil_r; repeat split; [done|done|by left].
  cbn [events outcome disk_after] in *.
  exists (events (startup argv d)), e1, (events (remap L1 d1)).
  repeat split; [done|done|]. right. rewrite remap_run. cbv zeta.
  destruct (remapVisibilities _ _ _) as [m|e]; eexists _, _; (split; [done|]).
  - by intros L [= <-].
  - done.
Qed.

Lemma subdivide_branch_shape L d :
  exists pre post,
    events (subdivide_branch L d) = pre ++ post /\
    Forall (fun ev => phase ev = PhSubdivide) pre /\
    (post = [] \/
     post = [call_remapVisibilities (visibilityRemappingMethod (var_texParams L))
               (var_refMesh L)]).
Proof.
  rewrite subdivide_branch_run. cbv zeta.
  destruct (subdivider_result L) as [me|e].
  2:{ eexists _, []. rewrite app_nil_r. split; [done|]. split; [by repeat constructor|by left]. }
  destruct (atlases_result L me) as [m|e].
  2:{ eexists _, []. rewrite app_nil_r. split; [done|]. split; [by repeat constructor|by left]. }
  eexists (_ :: _ :: _ :: _ :: _ :: _ :: _ :: _ :: [_]), [_].
  split; [reflexivity|]. split; [by repeat constructor|by right].
Qed.

(** The events of [main] after line 207, in a run that gets there. *)
Lemma main_events_from_decision argv d L :
  outcome (before_branch argv d) = Normal L ->
  exists finish,
    events (main argv d) =
      events (before_branch argv d) ++
      call_hasUVs :: events ((if negb (hasUVs (var_mesh L)) then unwrap_branch L
                              else subdivide_branch L) (disk_after (before_branch argv d)))
      ++ finish /\
    Forall (fun ev => phase ev = PhFinish) finish.
Proof.
  intros Ho. destruct (before_branch argv d) as [o d1 evs] eqn:H. simpl in Ho. subst o.
  rewrite (main_from_decision _ _ _ _ _ H).
  destruct (events_from_decision L d1) as (finish & -> & Hfin). by exists finish.
Qed.

Lemma main_events_before_decision argv d :
  (forall L, outcome (before_branch argv d) <> Normal L) ->
  events (main argv d) = events (before_branch argv d).
Proof.
  intros Hno. unfold main. rewrite events_bind.
  destruct (outcome (before_branch argv d)) as [L|c|e]; [by destruct (Hno L)| |];
    by rewrite app_nil_r.
Qed.

(** X10: the trace of every run, complete or not, is made of the events of
    the start-up, then those of the build loop, then at most one remap call,
    then at most one question about UVs, then the events of one branch
    (those of the unwrap branch, or those of the subdivision followed by at
    most one remap call), then the events of the export and the texture
    generation.  No stage is called out of this order. *)
Theorem X10_stages_in_fixed_order argv d :
  exists e_start e_build e_remap e_decision e_branch e_finish,
    events (main argv d) =
      e_start ++ e_build ++ e_remap ++ e_decision ++ e_branch ++ e_finish /\
    Forall (fun ev => phase ev = PhStartup) e_start /\
    Forall (fun ev => phase ev = PhBuild) e_build /\
    (Forall (fun ev => phase ev = PhRemap) e_remap /\ (length e_remap <= 1)%nat) /\
    (Forall (fun ev => phase ev = PhDecision) e_decision /\ (length e_decision <= 1)%nat) /\
    (Forall (fun ev => phase ev = PhUnwrap) e_branch \/
     exists pre post,
       e_branch = pre ++ post /\
       Forall (fun ev => phase ev = PhSubdivide) pre /\
       Forall (fun ev => phase ev = PhRemap) post /\ (length post <= 1)%nat) /\
    Forall (fun ev => phase ev = PhFinish) e_finish.
Proof.
  destruct (before_branch_shape argv d) as (s & b & r & Hev & Hs & Hb & Hr).
  assert (Hrem : Forall (fun ev => phase ev = PhRemap) r /\ (length r <= 1)%nat).
  { destruct Hr as [[-> _]|(m & c & -> & _)]; split; cbn; try lia; by repeat constructor. }
  destruct (outcome (before_branch argv d)) as [L|c|e] eqn:Ho.
  - destruct (main_events_from_decision argv d L Ho) as (finish & Hm & Hfin).
    exists s, b, r, [call_hasUVs],
      (events ((if negb (hasUVs (var_mesh L)) then unwrap_branch L else subdivide_branch L)
                 (disk_after (before_branch argv d)))), finish.
    split; [by rewrite Hm, Hev, <- !app_assoc|].
    repeat (split; [done|]). split; [split; [by repeat constructor|cbn; lia]|].
    split; [|done]. destruct (negb _).
    + left. apply unwrap_branch_phase.
    + right. destruct (subdivide_branch_shape L (disk_after (before_branch argv d)))
        as (pre & post & -> & Hpre & Hpost).
      exists pre, post. split; [done|]. split; [done|].
      destruct Hpost as [->| ->]; split; cbn; try lia; by repeat constructor.
  - exists s, b, r, [], [], []. rewrite main_events_before_decision by (by rewrite Ho).
    rewrite !app_nil_r. repeat (split; [done|]).
    split; [split; [constructor|cbn; lia]|]. split; [left|]; constructor.
  - exists s, b, r, [], [], []. rewrite main_events_before_decision by (by rewrite Ho).
    rewrite !app_nil_r. repeat (split; [done|]).
    split; [split; [constructor|cbn; lia]|]. split; [left|]; constructor.
Qed.

(** X11: every call of the visibility remap in a run is made with the same
    method and the same reference cloud. *)
Theorem X11_remap_always_same_method_and_cloud argv d :
  exists method refMesh,
    forall ev, ev ∈ events (main argv d) -> is_remap ev = true ->
               ev = call_remapVisibilities method refMesh.
Proof.
  destruct (before_branch_shape argv d) as (s & b & r & Hev & Hs & Hb & Hr).
  assert (Hsb : forall ev, ev ∈ s ++ b -> is_remap ev = true -> False).
  { intros ev Hin Hre. apply elem_of_app in Hin as [Hin|Hin].
    - rewrite Forall_forall in Hs. specialize (Hs ev Hin). by destruct ev.
    - rewrite Forall_forall in Hb. specialize (Hb ev Hin). by destruct ev. }
  destruct Hr as [[-> Hno]|(method & refMesh & -> & HL)].
  - exists Pull, Mesh_new. intros ev Hin Hre. exfalso.
    rewrite (main_events_before_decision argv d Hno), Hev, app_nil_r in Hin. eauto.
  - exists method, refMesh. intros ev Hin Hre.
    destruct (outcome (before_branch argv d)) as [L|c|e] eqn:Ho.
    2,3: rewrite main_events_before_decision in Hin by (by rewrite Ho);
         rewrite Hev, app_assoc in Hin; apply elem_of_app in Hin as [Hin|Hin];
         [by destruct (Hsb ev Hin)|by apply list_elem_of_singleton in Hin].
    destruct (HL L eq_refl) as [Hm Hc].
    destruct (main_events_from_decision argv d L Ho) as (finish & Hmain & Hfin).
    rewrite Hmain, Hev, (app_assoc s b) in Hin.
    apply elem_of_app in Hin as [Hin|Hin].
    { apply elem_of_app in Hin as [Hin|Hin];
        [by destruct (Hsb ev Hin)|by apply list_elem_of_singleton in Hin]. }
    apply elem_of_cons in Hin as [->|Hin]; [done|].
    apply elem_of_app in Hin as [Hin|Hin].
    2:{ rewrite Forall_forall in Hfin. specialize (Hfin ev Hin). by destruct ev as [| | | | |[]|[]| | | | | | | | | | | | | | | | ]. }
    destruct (negb _).
    + pose proof (unwrap_branch_phase L (disk_after (before_branch argv d))) as Hu.
      rewrite Forall_forall in Hu. specialize (Hu ev Hin).
      by destruct ev as [| | | | |[]|[]| | | | | | | | | | | | | | | | ].
    + destruct (subdivide_branch_shape L (disk_after (before_branch argv d)))
        as (pre & post & Hsd & Hpre & Hpost).
      rewrite Hsd in Hin. apply elem_of_app in Hin as [Hin|Hin].
      * rewrite Forall_forall in Hpre. specialize (Hpre ev Hin).
        by destruct ev as [| | | | |[]|[]| | | | | | | | | | | | | | | | ].
      * destruct Hpost as [->| ->]; [by apply elem_of_nil in Hin|].
        apply list_elem_of_singleton in Hin. by rewrite Hin, Hm, Hc.
Qed.

(** *** What is written *)

Lemma no_write_outside l :
  Forall (fun ev => phase ev <> PhStartup /\ phase ev <> PhFinish) l ->
  List.filter is_write l = [].
Proof.
  intros H. apply filter_none. eapply Forall_impl; [exact H|].
  intros ev [H1 H2]. destruct ev; try reflexivity; cbn in *; congruence.
Qed.

Lemma build_reference_cloud_keeps L d L' :
  outcome (build_reference_cloud L d) = Normal L' ->
  var_opts L' = var_opts L /\ var_outputTextureFileType L' = var_outputTextureFileType L.
Proof.
  destruct (build_reference_cloud L d) as [o d1 e1] eqn:H. simpl. intros ->.
  apply build_reference_cloud_Normal_inv in H as (_ & -> & _). done.
Qed.

Lemma remap_keeps L d L' :
  outcome (remap L d) = Normal L' ->
  var_opts L' = var_opts L /\ var_outputTextureFileType L' = var_outputTextureFileType L.
Proof.
  rewrite remap_run. cbv zeta. destruct (remapVisibilities _ _ _); [|done]. by intros [= <-].
Qed.

Lemma generate_uvs_or_subdivide_keeps L d L' :
  outcome (generate_uvs_or_subdivide L d) = Normal L' ->
  var_opts L' = var_opts L /\ var_outputTextureFileType L' = var_outputTextureFileType L.
Proof.
  unfold generate_uvs_or_subdivide. rewrite outcome_bind. cbn [emit outcome disk_after].
  destruct (negb _).
  - rewrite unwrap_branch_run. cbv zeta.
    destruct (EUnwrapMethod_stringToEnum _) as [method|e]; [|done].
    destruct (unwrap _ _ _); [|done]. by intros [= <-].
  - rewrite subdivide_branch_run. cbv zeta.
    destruct (subdivider_result L) as [me|e]; [|done].
    destruct (atlases_result L me) as [m|e]; [|done].
    cbn [outcome]. intros H. by apply remap_keeps in H.
Qed.

Lemma before_finish_keeps argv d L :
  outcome (before_finish argv d) = Normal L ->
  exists L0, outcome (startup argv d) = Normal L0 /\
             var_opts L = var_opts L0 /\
             var_outputTextureFileType L = var_outputTextureFileType L0.
Proof.
  unfold before_finish. rewrite outcome_bind.
  destruct (outcome (before_branch argv d)) as [L1|c|e] eqn:H1; [|done|done].
  intros Hg. apply generate_uvs_or_subdivide_keeps in Hg as [Hg1 Hg2].
  unfold before_branch in H1. rewrite outcome_bind in H1.
  destruct (outcome (startup argv d)) as [L0|c|e]; [|done|done].
  rewrite outcome_bind in H1.
  destruct (outcome (build_reference_cloud L0 _)) as [L2|c|e] eqn:Hb; [|done|done].
  apply build_reference_cloud_keeps in Hb as [Hb1 Hb2].
  apply remap_keeps in H1 as [Hr1 Hr2].
  exists L0. split; [done|]. split; congruence.
Qed.

Lemma before_finish_writes argv d :
  List.filter is_write (events (before_finish argv d)) =
  List.filter is_write (events (startup argv d)).
Proof.
  unfold before_finish. rewrite events_bind, List.filter_app.
  rewrite (no_write_outside (match outcome (before_branch argv d) with
                             | Normal a => _ | _ => [] end)).
  2:{ destruct (outcome (before_branch argv d)); [|constructor|constructor].
      eapply Forall_impl; [apply generate_uvs_or_subdivide_phase|].
      cbn. intros ev H. split; intros E; rewrite E in H; intuition discriminate. }
  rewrite app_nil_r. unfold before_branch. rewrite events_bind, List.filter_app.
  rewrite (no_write_outside (match outcome (startup argv d) with
                             | Normal a => _ | _ => [] end)).
  2:{ destruct (outcome (startup argv d)); [|constructor|constructor].
      rewrite events_bind. apply Forall_app. split.
      - eapply Forall_impl; [apply build_reference_cloud_phase|].
        cbn. intros ev H. by rewrite H.
      - destruct (outcome _); [|constructor|constructor].
        eapply Forall_impl; [apply remap_phase|]. cbn. intros ev H. by rewrite H. }
  by rewrite app_nil_r.
Qed.

(** What the start-up writes: nothing, and then it does not complete, or
    the output folder. *)
Lemma startup_writes argv d :
  (List.filter is_write (events (startup argv d)) = [] /\
   disk_after (startup argv d) = d /\
   forall L, outcome (startup argv d) <> Normal L) \/
  (exists o ft,
     options_accepted argv o /\
     EImageFileType_stringToEnum (outTextureFileTypeName o) = Ok ft /\
     List.filter is_write (events (startup argv d)) = [call_create_directory (outputFolder o)] /\
     forall L, outcome (startup argv d) = Normal L ->
               var_opts L = o /\ var_outputTextureFileType L = ft).
Proof.
  rewrite startup_run.
  destruct (parse_command_line argv) as [vm|e] eqn:Hp; [|left; by destruct e].
  destruct (help_or_no_arguments vm argv) eqn:Hh; [by left|].
  destruct (notify vm) as [o|e] eqn:Hn; [|left; by destruct e].
  rewrite configure_run.
  destruct (EVisibilityRemappingMethod_stringToEnum _) as [vrm|e]; [|by left].
  destruct (EImageColorSpace_stringToEnum _) as [pc|e]; [|by left].
  destruct (EImageFileType_stringToEnum _) as [ft|e] eqn:Hft; [|by left].
  cbn [fst snd]. rewrite load_inputs_run.
  destruct (sfmDataIO_Load _ _) as [[sfm|]|e]; [|by left|by left].
  destruct (MultiViewParams_ctor _ _ _) as [mp|e]; [|by left].
  destruct (clear _) as [m0|e]; [|by left].
  destruct (loadFromOBJ _ _ _ _) as [m|e]; [|by left].
  right. exists o, ft. split; [by exists vm|]. split; [done|].
  destruct (create_directory _ _) as [[[]|e] d1]; split; try done.
  by intros L [= <-].
Qed.

(** X12: all that a run writes is, in this order, the output folder, the
    mesh exported under it as [texturedMesh] and the textures generated
    under it, both in the file type the options name; a run stops after any
    of them or before the first, and a run that writes nothing leaves the
    disk as it found it. *)
Theorem X12_writes_only_under_output_folder argv d :
  let writes := List.filter is_write (events (main argv d)) in
  (writes = [] /\ disk_after (main argv d) = d) \/
  (exists o ft,
     options_accepted argv o /\
     EImageFileType_stringToEnum (outTextureFileTypeName o) = Ok ft /\
     writes <> [] /\
     writes `prefix_of`
       [call_create_directory (outputFolder o);
        call_saveAsOBJ (outputFolder o) "texturedMesh"%string ft;
        call_generateTextures (outputFolder o) ft]).
Proof.
  cbv zeta. rewrite main_before_finish, events_bind, disk_after_bind, List.filter_app.
  rewrite before_finish_writes, before_finish_disk.
  destruct (startup_writes argv d) as [(Hw & Hd & Hno)|(o & ft & Hacc & Hft & Hw & HL)].
  - left. rewrite Hw, Hd.
    destruct (outcome (before_finish argv d)) as [L|c|e] eqn:Ho; [|done|done].
    apply before_finish_keeps in Ho as (L0 & Hs & _). by destruct (Hno L0).
  - right. exists o, ft. split; [done|]. split; [done|]. rewrite Hw. split; [done|].
    destruct (outcome (before_finish argv d)) as [L|c|e] eqn:Ho.
    2,3: by eexists [_; _].
    apply before_finish_keeps in Ho as (L0 & Hs & Ho1 & Ho2).
    destruct (HL L0 Hs) as [<- <-]. rewrite save_and_texture_run. cbv zeta.
    rewrite Ho1, Ho2. unfold finish_events. rewrite Ho1, Ho2.
    destruct (saveAsOBJ _ _ _ _ _) as [[[]|e] d2]; [|by eexists [_]].
    destruct (generateTextures _ _ _ _ _) as [[m|e] d3]; by exists [].
Qed.

End PipelineRun.

(** ** The properties on concrete runs *)

Import TestWorld.

(** A mesh with UVs, three vertices, average edge length 2: the whole run. *)
Example run_with_uvs :
  (run argv_ok disk_uvs).1.1 = Exit 0 /\
  (run argv_ok disk_uvs).2 =
    [call_parse_command_line argv_ok; call_notify; Cout_parameters; SetLogLevel "info";
     call_Load "scene.sfm"; call_MultiViewParams ""; call_clear;
     call_loadFromOBJ "mesh.obj" false; call_create_directory "out";
     call_getIndexFromViewId 10; call_getIndexFromViewId 20;
     call_remapVisibilities PullPush
       {| pts := [P 1 0 0; P 0 3 0]; tris := []; pointsVisibilities := [[0; 1]; []] |};
     call_hasUVs; LogInfo StartSubdivision; LogInfo (NbPtsInit 3);
     LogInfo (NbPtsVisibilitiesInit 3); call_computeAverageEdgeLength;
     call_subdivide 0x1.99999ap-3%float 300; call_updateAtlases;
     LogInfo (NbPtsAfterSubdivision 3); LogInfo (NbTrisAfterSubdivision 1);
     LogInfo (NbPtsVisibilitiesAfterSubdivision 3);
     call_remapVisibilities PullPush
       {| pts := [P 1 0 0; P 0 3 0]; tris := []; pointsVisibilities := [[0; 1]; []] |};
     call_saveAsOBJ "out" "texturedMesh" "png";
     LogInfo GenerateTexturesMsg; call_generateTextures "out" "png";
     LogInfo TaskDone]%string.
Proof. split; vm_compute; reflexivity. Qed.

(** A mesh without UVs: the phases of the run, in order. *)
Example run_without_uvs :
  (run argv_ok disk_no_uvs).1.1 = Exit 0 /\
  phase <$> (run argv_ok disk_no_uvs).2 =
    replicate 9 PhStartup ++ [PhBuild; PhBuild; PhRemap; PhDecision]
    ++ replicate 3 PhUnwrap ++ replicate 4 PhFinish.
Proof. split; vm_compute; reflexivity. Qed.

(** A required option is missing: the error, the usage, exit code 1. *)
Example run_missing_required_option :
  (run ["texturing"; "--input"; "scene.sfm"] disk_uvs).1 = (Exit 1, disk_uvs) /\
  (run ["texturing"; "--input"; "scene.sfm"] disk_uvs).2 =
    [call_parse_command_line ["texturing"; "--input"; "scene.sfm"]; call_notify;
     Cerr_error "--inputMesh"; Cout_usage]%string.
Proof. split; vm_compute; reflexivity. Qed.

(** The scene file is not there: the error is logged, exit code 1. *)
Example run_unreadable_scene :
  (run ["texturing"; "--input"; "nothing.sfm"; "--inputMesh"; "mesh.obj"; "--output"; "out"]
       disk_uvs).1 = (Exit 1, disk_uvs).
Proof. vm_compute. reflexivity. Qed.

(** An unwrap method that does not exist: the conversion of line 213 throws
    inside the unwrap branch and nothing catches it. *)
Example run_unknown_unwrap_method :
  (run (argv_ok ++ ["--unwrapMethod"; "Fast"]) disk_no_uvs).1.1
    = Terminate (other_exception "Fast").
Proof. vm_compute. reflexivity. Qed.


(** The scene of two landmarks: two points, two visibility sets, the second
    one empty. *)
Lemma C2_witness :
  all_views_resolve {| viewIndex := index_views [10; 20] |} (getLandmarks scene) /\
  exists refMesh,
    outcome (landmark_loop {| viewIndex := index_views [10; 20] |} (getLandmarks scene)
               Mesh_new (∅ : gmap string File)) = Normal refMesh /\
    length (pts refMesh) = 2%nat /\
    length (pointsVisibilities refMesh) = 2%nat /\
    pointsVisibilities refMesh !! 1%nat = Some [].
Proof.
  assert (H : all_views_resolve {| viewIndex := index_views [10; 20] |} (getLandmarks scene)).
  { unfold all_views_resolve. repeat constructor; vm_compute; by eexists. }
  split; [exact H|].
  destruct (C2_reference_cloud_one_entry_per_landmark (W := world) _ _ ∅ H)
    as (refMesh & Ho & Hp & Hv & _ & _ & He).
  exists refMesh. split; [exact Ho|]. split; [exact Hp|]. split; [exact Hv|].
  exact (He 1%nat _ eq_refl eq_refl).
Defined.

(** A run on a mesh with UVs: the atlas update comes before the second
    remap, which is given the cloud of the first. *)
Lemma C3_witness :
  exists L me m,
    outcome (before_branch argv_ok disk_uvs) = Normal L /\
    hasUVs (var_mesh L) = true /\
    subdivider_result L = Ok me /\ atlases_result L me = Ok m /\
    steps_after_subdivider (events (main argv_ok disk_uvs)) =
      [call_updateAtlases;
       call_remapVisibilities (visibilityRemappingMethod (var_texParams L)) (var_refMesh L)].
Proof.
  eexists ?[L].
  assert (H : outcome (before_branch argv_ok disk_uvs) = Normal ?L) by (vm_compute; reflexivity).
  lazymatch type of H with
  | _ = Normal ?L0 =>
      eexists ?[me];
      assert (Hs : subdivider_result L0 = Ok ?me) by (vm_compute; reflexivity)
  end.
  lazymatch type of Hs with
  | subdivider_result ?L0 = Ok ?me0 =>
      eexists ?[m];
      assert (Ha : atlases_result L0 me0 = Ok ?m) by (vm_compute; reflexivity)
  end.
  split; [exact H|]. split; [reflexivity|]. split; [exact Hs|]. split; [exact Ha|].
  exact (proj1 (C3_atlases_then_remap (W := world) argv_ok disk_uvs _ _ _ H eq_refl Hs Ha)).
Defined.

(** The order of the specification does not hold on that run. *)
Lemma C3_counterexample : ~ remap_then_atlases (events (main argv_ok disk_uvs)).
Proof.
  intros (method & refMesh & H). vm_compute in H. discriminate H.
Qed.

(** A run on a mesh with UVs in which the subdivider and the atlas update
    return calls the remap twice. *)
Lemma C5_witness :
  exists L,
    outcome (before_branch argv_ok disk_uvs) = Normal L /\
    hasUVs (var_mesh L) = true /\
    count_events is_remap (events (main argv_ok disk_uvs)) = 2%nat.
Proof.
  eexists ?[L].
  assert (H : outcome (before_branch argv_ok disk_uvs) = Normal ?L) by (vm_compute; reflexivity).
  split; [exact H|]. split; [reflexivity|].
  exact (C5_remap_count_by_branch (W := world) argv_ok disk_uvs _ H).
Defined.

(** The same run with a subdivider that throws: the branch is reached with a
    mesh that has UVs, and the remap is called once, not twice. *)
Lemma C5_counterexample :
  ~ remap_count_as_specified (W := world_subdivider_fails) argv_ok disk_uvs.
Proof.
  intros H.
  eassert (E : outcome (before_branch (W := world_subdivider_fails) argv_ok disk_uvs)
               = Normal _) by (vm_compute; reflexivity).
  specialize (H _ E). vm_compute in H. discriminate H.
Qed.

(** The literal [0.1f] is the [float] nearest to a tenth: the rounding of
    the [double] nearest to a tenth, 0x1.999999999999ap-4. *)
Example float_literal_0_1 : binary32_round 0x1.999999999999ap-4%float = f0_1.
Proof. vm_compute. reflexivity. Qed.

(** A product that needs the rounding: 3 * 0.1f is 0x1.3333338p-2 exactly
    and 0x1.333334p-2 as a [float]. *)
Example float_product_is_rounded : fmul 3%float f0_1 = 0x1.333334p-2%float.
Proof. vm_compute. reflexivity. Qed.

(** Three vertices and an average edge length of 2: the threshold is the
    [float] 2 * 0.1f = 0x1.99999ap-3 and the budget is 300. *)
Example thresholds_of_three_vertices :
  call_subdivide 0x1.99999ap-3%float 300
    ∈ events (subdivide_branch (locals_with one_triangle) (∅ : gmap string File)).
Proof. apply subdivide_call_in_branch. split; vm_compute; reflexivity. Qed.

Lemma length_mesh_of_size n :
  length (pts (mesh (var_mesh (locals_with (mesh_of_size n))))) = n.
Proof. apply length_replicate. Qed.

(** C6: on a mesh with UVs, 21474837 vertices and an average edge length of
    2, the subdivider is called once, with the edge-length threshold
    2 * 0.1f and with the maximum-points threshold -2147483596: line 225
    narrows the product 2147483700 to a 32-bit int.  The thresholds of the
    specification do not hold on that mesh. *)
Theorem C6_budget_overflows_at_21474837 :
  let L := locals_with (mesh_of_size (Z.to_nat 21474837)) in
  let n := Z.of_nat (length (pts (mesh (var_mesh L)))) in
  hasUVs (var_mesh L) = true /\
  n = 21474837 /\
  (forall lengthThr maxPts,
     call_subdivide lengthThr maxPts ∈ events (subdivide_branch L (∅ : gmap string File)) <->
     lengthThr = 0x1.99999ap-3%float /\ maxPts = -2147483596) /\
  n * 100 = 2147483700 /\
  ~ thresholds_as_specified L (∅ : gmap string File).
Proof.
  cbv zeta. rewrite length_mesh_of_size, Z2Nat.id by lia.
  assert (Hq : fmul (computeAverageEdgeLength
                       (mesh (var_mesh (locals_with (mesh_of_size (Z.to_nat 21474837))))))
                 f0_1 = 0x1.99999ap-3%float).
  { change (binary32_round (PrimFloat.mul 2%float f0_1) = 0x1.99999ap-3%float).
    vm_compute. reflexivity. }
  assert (Hn : subdivideMaxPtsThr (Z.to_nat 21474837) = -2147483596).
  { unfold subdivideMaxPtsThr. rewrite Z2Nat.id by lia. vm_compute. reflexivity. }
  assert (Hcall : forall lengthThr maxPts,
    call_subdivide lengthThr maxPts
      ∈ events (subdivide_branch (locals_with (mesh_of_size (Z.to_nat 21474837)))
                  (∅ : gmap string File)) <->
    lengthThr = 0x1.99999ap-3%float /\ maxPts = -2147483596).
  { intros lengthThr maxPts.
    by rewrite subdivide_call_in_branch, length_mesh_of_size, Hq, Hn. }
  split; [reflexivity|]. split; [reflexivity|]. split; [exact Hcall|].
  split; [reflexivity|].
  intros H. destruct (H _ _ (proj2 (Hcall _ _) (conj eq_refl eq_refl))) as [_ E].
  rewrite length_mesh_of_size, Z2Nat.id in E by lia. discriminate E.
Qed.

(** A landmark observed by view 99, which the scene does not have: the run
    is terminated by the resolution error after the output folder has been
    created, and the input mesh file reads as before. *)
Lemma C7_witness :
  exists L,
    outcome (startup argv_ok disk_unknown_view) = Normal L /\
    some_view_unresolved (var_mp L) (getLandmarks (var_sfmData L)) /\
    exists vid evs',
      viewIndex (var_mp L) !! vid = None /\
      run argv_ok disk_unknown_view
        = (Terminate (ResolutionError vid), disk_after (startup argv_ok disk_unknown_view),
           events (startup argv_ok disk_unknown_view) ++ evs').
Proof.
  eexists ?[L].
  assert (H : outcome (startup argv_ok disk_unknown_view) = Normal ?L)
    by (vm_compute; reflexivity).
  split; [exact H|].
  match goal with |- ?U /\ _ => assert (Hu : U) end.
  { eexists _, 99. split; [apply list_elem_of_here|].
    split; [|vm_compute; reflexivity].
    apply list_elem_of_further, list_elem_of_here. }
  split; [exact Hu|].
  destruct (C7_unresolved_view_is_fatal (W := world) argv_ok disk_unknown_view _ H Hu)
    as (vid & evs' & Hnone & _ & Hrun & _).
  exists vid, evs'. split; [exact Hnone|exact Hrun].
Defined.

(** What that run is: the view that does not resolve is 99, and the input
    mesh file is on the disk as before. *)
Example run_unknown_view :
  (run argv_ok disk_unknown_view).1.1 = Terminate (ResolutionError 99) /\
  (run argv_ok disk_unknown_view).1.2 !! "mesh.obj"%string
    = disk_unknown_view !! "mesh.obj"%string.
Proof. split; vm_compute; reflexivity. Qed.


(** The options the test parser knows are options the code declares. *)
Lemma known_options_are_declared name :
  known_option name = true ->
  exists long, long ∈ declared_options /\ name = ("--" +:+ long)%string.
Proof.
  unfold known_option. intros H. apply bool_decide_eq_true in H.
  repeat (apply elem_of_cons in H as [->|H];
          [refine (ex_intro _ _ (conj _ eq_refl)); unfold declared_options;
           rewrite !elem_of_cons; tauto|]).
  by apply elem_of_nil in H.
Qed.

(** C9: the options description of lines 57-119 declares no [help] option.
    The command line [texturing --help] is rejected by the parser as naming
    an unknown option: the run prints the error and the usage and returns
    EXIT_FAILURE (line 145), not EXIT_SUCCESS.  With no argument at all
    line 127 prints the options description and returns EXIT_SUCCESS. *)
Theorem C9_help_flag_is_rejected :
  ("help"%string ∉ declared_options) /\
  run argv_help disk_uvs =
    (Exit EXIT_FAILURE, disk_uvs,
     [call_parse_command_line argv_help; Cerr_error "--help"; Cout_usage]) /\
  run ["texturing"%string] disk_uvs =
    (Exit EXIT_SUCCESS, disk_uvs,
     [call_parse_command_line ["texturing"%string]; Cout_allParams]).
Proof.
  split.
  - unfold declared_options. intros H.
    repeat (apply elem_of_cons in H as [H|H]; [discriminate H|]).
    by apply elem_of_nil in H.
  - split; vm_compute; reflexivity.
Qed.

(** ** The further properties on concrete runs *)

(** An option the parser does not know: the error and the usage are
    printed, exit code 1. *)
Lemma X1_witness :
  let argv := ["texturing"; "--frobnicate"; "x"]%string in
  thrown_in_try argv (po_error "--frobnicate") [call_parse_command_line argv] /\
  is_po_error (po_error "--frobnicate") = true /\
  run argv disk_uvs =
    (Exit EXIT_FAILURE, disk_uvs,
     [call_parse_command_line argv] ++
     [Cerr_error (po_what (po_error "--frobnicate")); Cout_usage]).
Proof.
  cbv zeta.
  assert (H : thrown_in_try (W := world) ["texturing"; "--frobnicate"; "x"]%string
                (po_error "--frobnicate")
                [call_parse_command_line ["texturing"; "--frobnicate"; "x"]%string])
    by (left; split; reflexivity).
  split; [exact H|]. split; [reflexivity|].
  exact (X1_program_options_error_is_reported (W := world) _ disk_uvs _ _ H eq_refl).
Defined.

(** A parser that runs out of memory: nothing is printed, the process is
    terminated. *)
Lemma X2_witness :
  thrown_in_try (W := world_parser_fails) argv_ok (other_exception "std::bad_alloc")
    [call_parse_command_line argv_ok] /\
  is_po_error (other_exception "std::bad_alloc") = false /\
  run (W := world_parser_fails) argv_ok disk_uvs =
    (Terminate (other_exception "std::bad_alloc"), disk_uvs,
     [call_parse_command_line argv_ok]).
Proof.
  assert (H : thrown_in_try (W := world_parser_fails) argv_ok
                (other_exception "std::bad_alloc") [call_parse_command_line argv_ok])
    by (left; split; reflexivity).
  split; [exact H|]. split; [reflexivity|].
  exact (X2_other_exception_leaves_the_try_block (W := world_parser_fails)
           argv_ok disk_uvs _ _ H eq_refl).
Defined.

(** A remapping method that does not exist: the process is terminated
    before the scene is read. *)
Lemma X3_witness :
  exists o,
    options_accepted argv_bad_remapping o /\
    conversion_failure o = Some (other_exception "Nearest") /\
    run argv_bad_remapping disk_uvs =
      (Terminate (other_exception "Nearest"), disk_uvs,
       configured_events argv_bad_remapping o).
Proof.
  eexists ?[o].
  assert (H : options_accepted (W := world) argv_bad_remapping ?o).
  { eexists. split; [vm_compute; reflexivity|]. split; vm_compute; reflexivity. }
  split; [exact H|].
  lazymatch type of H with
  | options_accepted _ ?o0 =>
      assert (Hc : conversion_failure (W := world) o0 = Some (other_exception "Nearest"))
        by (vm_compute; reflexivity)
  end.
  split; [exact Hc|].
  exact (X3_bad_enum_name_ends_the_run_before_any_load (W := world)
           argv_bad_remapping disk_uvs _ _ H Hc).
Defined.

(** The scene file is not on the disk. *)
Lemma X4_witness :
  exists o,
    options_accepted argv_no_scene o /\
    conversion_failure o = None /\
    sfmDataIO_Load (sfmDataFilename o) disk_uvs = Ok None /\
    run argv_no_scene disk_uvs =
      (Exit EXIT_FAILURE, disk_uvs,
       configured_events argv_no_scene o ++
       [call_Load (sfmDataFilename o); LogError (CannotReadSfMData (sfmDataFilename o))]).
Proof.
  eexists ?[o].
  assert (H : options_accepted (W := world) argv_no_scene ?o).
  { eexists. split; [vm_compute; reflexivity|]. split; vm_compute; reflexivity. }
  split; [exact H|].
  lazymatch type of H with
  | options_accepted _ ?o0 =>
      assert (Hc : conversion_failure (W := world) o0 = None) by (vm_compute; reflexivity);
      assert (Hl : sfmDataIO_Load (World := world) (sfmDataFilename o0) disk_uvs = Ok None)
        by (vm_compute; reflexivity)
  end.
  split; [exact Hc|]. split; [exact Hl|].
  exact (X4_unreadable_scene_stops_before_the_mesh (W := world)
           argv_no_scene disk_uvs _ H Hc Hl).
Defined.

(** The whole run creates the folder [out]: the options were accepted and
    the scene and the mesh were loaded before. *)
Lemma X5_witness :
  call_create_directory "out" ∈ events (main argv_ok disk_uvs) /\
  exists o cfg sfm mp m0 m,
    options_accepted argv_ok o /\
    outcome (configure o disk_uvs) = Normal cfg /\
    sfmDataIO_Load (sfmDataFilename o) disk_uvs = Ok (Some sfm) /\
    MultiViewParams_ctor sfm (imagesFolder o) disk_uvs = Ok mp /\
    clear (Texturing_new cfg.1) = Ok m0 /\
    loadFromOBJ (inputMeshFilepath o) (flipNormals o) disk_uvs m0 = Ok m /\
    "out"%string = outputFolder o.
Proof.
  assert (H : call_create_directory "out" ∈ events (main (W := world) argv_ok disk_uvs)).
  { apply (list_elem_of_lookup_2 _ 8%nat). vm_compute. reflexivity. }
  split; [exact H|].
  exact (X5_output_folder_created_after_the_loads (W := world) argv_ok disk_uvs _ H).
Defined.

(** The start-up of the whole run. *)
Lemma X6_witness :
  exists L,
    outcome (startup argv_ok disk_uvs) = Normal L /\
    let o := var_opts L in
    let tp := var_texParams L in
    let given := opt_texParams o in
    options_accepted argv_ok o /\
    EVisibilityRemappingMethod_stringToEnum (opt_visibilityRemappingMethod o)
      = Ok (visibilityRemappingMethod tp) /\
    EImageColorSpace_stringToEnum (processColorspaceName o) = Ok (processColorspace tp) /\
    EImageFileType_stringToEnum (outTextureFileTypeName o) = Ok (var_outputTextureFileType L) /\
    correctEV tp = (if opt_correctEV o then APPLY_CORRECTION else NO_CORRECTION) /\
    (textureSide tp = textureSide given /\ downscale tp = downscale given /\
     useUDIM tp = useUDIM given /\ fillHoles tp = fillHoles given /\
     padding tp = padding given /\ useScore tp = useScore given /\
     multiBandDownscale tp = multiBandDownscale given /\
     multiBandNbContrib tp = multiBandNbContrib given /\
     bestScoreThreshold tp = bestScoreThreshold given /\
     angleHardThreshold tp = angleHardThreshold given /\
     forceVisibleByAllVertices tp = forceVisibleByAllVertices given) /\
    exists m0,
      clear (Texturing_new tp) = Ok m0 /\
      loadFromOBJ (inputMeshFilepath o) (flipNormals o) disk_uvs m0 = Ok (var_mesh L).
Proof.
  eexists ?[L].
  assert (H : outcome (startup (W := world) argv_ok disk_uvs) = Normal ?L)
    by (vm_compute; reflexivity).
  split; [exact H|].
  exact (X6_texturing_parameters_forwarded (W := world) argv_ok disk_uvs _ H).
Defined.

(** The scene of two landmarks: no view observes a landmark twice and the
    two views have two indices. *)
Lemma X8_witness :
  let mp := {| viewIndex := index_views [10; 20] |} in
  exists refMesh,
    outcome (landmark_loop mp (getLandmarks scene) Mesh_new (∅ : gmap string File))
      = Normal refMesh /\
    Forall (fun lp => NoDup (observations lp.2).*1) (getLandmarks scene) /\
    (forall v1 v2 i, viewIndex mp !! v1 = Some i -> viewIndex mp !! v2 = Some i -> v1 = v2) /\
    Forall (fun v => NoDup v) (pointsVisibilities refMesh).
Proof.
  cbv zeta. eexists ?[r].
  assert (H : outcome (landmark_loop (W := world) {| viewIndex := index_views [10; 20] |}
                         (getLandmarks scene) Mesh_new (∅ : gmap string File)) = Normal ?r)
    by (vm_compute; reflexivity).
  assert (Hobs : Forall (fun lp : IndexT * Landmark => NoDup (observations lp.2).*1)
                   (getLandmarks scene)).
  { repeat constructor; cbn; set_solver. }
  assert (Hinj : forall v1 v2 i,
             viewIndex {| viewIndex := index_views [10; 20] |} !! v1 = Some i ->
             viewIndex {| viewIndex := index_views [10; 20] |} !! v2 = Some i -> v1 = v2).
  { intros v1 v2 i. cbn. unfold index_views. cbn.
    rewrite !lookup_insert_Some, !lookup_empty. change (Z.of_nat 0) with 0.
    change (Z.of_nat 1) with 1. intuition congruence. }
  split; [exact H|]. split; [exact Hobs|]. split; [exact Hinj|].
  exact (X8_visibility_sets_have_no_duplicates (W := world) _ _ _ _ H Hobs Hinj).
Defined.

(** Thirty million vertices: the budget is negative. *)
Lemma X9_witness :
  21474837 <= Z.of_nat (Z.to_nat 30000000) <= 42949672 /\
  subdivideMaxPtsThr (Z.to_nat 30000000) = 100 * Z.of_nat (Z.to_nat 30000000) - 2 ^ 32 /\
  subdivideMaxPtsThr (Z.to_nat 30000000) < 0.
Proof.
  assert (H : 21474837 <= Z.of_nat (Z.to_nat 30000000) <= 42949672)
    by (rewrite Z2Nat.id; lia).
  split; [exact H|]. exact (X9_budget_negative_range _ H).
Defined.

(** The whole run on a mesh with UVs, from the end of the branch on. *)
Lemma X13_witness :
  exists L,
    outcome (before_finish argv_ok disk_uvs) = Normal L /\
    let d1 := disk_after (startup argv_ok disk_uvs) in
    let evs := events (before_finish argv_ok disk_uvs) in
    let out := outputFolder (var_opts L) in
    let ft := var_outputTextureFileType L in
    match saveAsOBJ out "texturedMesh"%string ft (var_mesh L) d1 with
    | (Throw e, d2) =>
        run argv_ok disk_uvs =
          (Terminate e, d2, evs ++ [call_saveAsOBJ out "texturedMesh"%string ft])
    | (Ok _, d2) =>
        match generateTextures (var_mp L) out ft (var_mesh L) d2 with
        | (Throw e, d3) => run argv_ok disk_uvs = (Terminate e, d3, evs ++ finish_events L)
        | (Ok _, d3) =>
            run argv_ok disk_uvs =
              (Exit EXIT_SUCCESS, d3, evs ++ finish_events L ++ [LogInfo TaskDone])
        end
    end.
Proof.
  eexists ?[L].
  assert (H : outcome (before_finish (W := world) argv_ok disk_uvs) = Normal ?L)
    by (vm_compute; reflexivity).
  split; [exact H|].
  exact (X13_export_then_textures_in_order (W := world) argv_ok disk_uvs _ H).
Defined.

(** The run on a mesh without UVs, through the unwrap branch. *)
Lemma X14_witness :
  exists L,
    outcome (before_branch argv_ok disk_no_uvs) = Normal L /\
    hasUVs (var_mesh L) = false /\
    let d1 := disk_after (startup argv_ok disk_no_uvs) in
    let evs := events (before_branch argv_ok disk_no_uvs) in
    let start := LogInfo (StartUnwrapping (unwrapMethod (var_opts L))) in
    match EUnwrapMethod_stringToEnum (unwrapMethod (var_opts L)) with
    | Throw e => run argv_ok disk_no_uvs = (Terminate e, d1, evs ++ [call_hasUVs; start])
    | Ok method =>
        match unwrap (var_mp L) method (var_mesh L) with
        | Throw e =>
            run argv_ok disk_no_uvs =
              (Terminate e, d1, evs ++ [call_hasUVs; start; call_unwrap method])
        | Ok m =>
            outcome (before_finish argv_ok disk_no_uvs) = Normal (set_mesh L m) /\
            events (before_finish argv_ok disk_no_uvs) =
              evs ++ [call_hasUVs; start; call_unwrap method; LogInfo UnwrappingDone]
        end
    end.
Proof.
  eexists ?[L].
  assert (H : outcome (before_branch (W := world) argv_ok disk_no_uvs) = Normal ?L)
    by (vm_compute; reflexivity).
  split; [exact H|]. split; [reflexivity|].
  exact (X14_unwrap_branch_data_flow (W := world) argv_ok disk_no_uvs _ H eq_refl).
Defined.

(** The run on a mesh with UVs, through the subdivision branch. *)
Lemma X15_witness :
  exists L,
    outcome (before_branch argv_ok disk_uvs) = Normal L /\
    hasUVs (var_mesh L) = true /\
    let d1 := disk_after (startup argv_ok disk_uvs) in
    match subdivider_result L with
    | Throw e => (run argv_ok disk_uvs).1 = (Terminate e, d1)
    | Ok me =>
        match atlases_result L me with
        | Throw e => (run argv_ok disk_uvs).1 = (Terminate e, d1)
        | Ok m =>
            match remapVisibilities (visibilityRemappingMethod (var_texParams L))
                    (var_refMesh L) m with
            | Throw e => (run argv_ok disk_uvs).1 = (Terminate e, d1)
            | Ok m' => outcome (before_finish argv_ok disk_uvs) = Normal (set_mesh L m')
            end
        end
    end.
Proof.
  eexists ?[L].
  assert (H : outcome (before_branch (W := world) argv_ok disk_uvs) = Normal ?L)
    by (vm_compute; reflexivity).
  split; [exact H|]. split; [reflexivity|].
  exact (X15_subdivision_branch_data_flow (W := world) argv_ok disk_uvs _ H eq_refl).
Defined.
